(** * europa_surface: bounding-box prompting script

    A shallow embedding of [src/bounding_box_prompting.py]: the grid
    plotting helper [plot_images_grid] and the evaluation driver
    [bounding_box_prompt] with its checkpoint resolver.

    Python state (the caller's list object, pyplot's figure registry,
    the figures saved, the [args] namespace) is threaded through a state
    and exception monad; third-party functions whose results the script
    only passes along are taken through interfaces. *)

From Stdlib Require Import ZArith Lia Bool Ascii String DecimalString.
From stdpp Require Import base option list gmap strings.

Local Open Scope string_scope.
Local Open Scope list_scope.
Local Open Scope Z_scope.

(** ** Python strings *)

(** [s.startswith(pre)]. *)
Fixpoint startswith (pre s : string) : bool :=
  match pre, s with
  | EmptyString, _ => true
  | String _ _, EmptyString => false
  | String a pre', String b s' => Ascii.eqb a b && startswith pre' s'
  end.

(** [s.endswith("/")], the only suffix test [os.path.join] makes. *)
Fixpoint endswith_sep (s : string) : bool :=
  match s with
  | EmptyString => false
  | String a EmptyString => Ascii.eqb a "/"%char
  | String _ s' => endswith_sep s'
  end.

(** [sub in s]: [sub] occurs in [s] at some offset. *)
Fixpoint contains (sub s : string) : bool :=
  match s with
  | EmptyString => startswith sub EmptyString
  | String _ s' => startswith sub s || contains sub s'
  end.

(** [os.path.join(a, b)] of posixpath, for two components. *)
Definition os_path_join (a b : string) : string :=
  if startswith "/" b then b
  else if String.eqb a EmptyString || endswith_sep a then a +:+ b
  else a +:+ "/" +:+ b.

(** [repr(n)] of an [int]. *)
Definition repr_int (n : Z) : string := NilZero.string_of_int (Z.to_int n).

(** ** Values *)

(** A numpy array: its shape and its flattened contents. *)
Record ndarray := NdArray { shape : list nat; data : list Z }.

Definition ndim (a : ndarray) : nat := length (shape a).

(** A [PIL.Image.Image]. *)
Record PilImage := MkPil { pil_mode : string; pil_size : nat * nat; pil_data : list Z }.

(** [ImageType = Union[np.ndarray, Image.Image]]. *)
Inductive ImageType :=
| Nd (a : ndarray)
| Pil (p : PilImage).

(** Third-party conversions the plotting helper calls:
    [supervision.utils.conversion.pillow_to_cv2] and
    [cv2.cvtColor(_, cv2.COLOR_BGR2RGB)]. Both go through OpenCV, which
    raises [cv2.error] on data it cannot convert: [None]. *)
Class Imaging := {
  pillow_to_cv2 : PilImage -> option ndarray;
  cvtColor_BGR2RGB : ndarray -> option ndarray
}.

(** Exceptions that reach the caller. *)
Inductive exn :=
| ValueError (msg : string)
| AttributeError (msg : string)
| TypeError (msg : string)
| IndexError
| AssertionError
| Cv2Error
| FileNotFoundError.

Inductive result (A : Type) :=
| Ok (a : A)
| Raise (e : exn).
Arguments Ok {A} a.
Arguments Raise {A} e.

(** ** pyplot figures *)

(** One subplot: the images drawn on it (array and colormap argument),
    its title and whether its axis decorations are on. *)
Record cell := Cell {
  c_images : list (ndarray * option string);
  c_title : option string;
  c_axis_on : bool
}.

Definition blank_cell : cell := Cell [] None true.

Record figure := Figure {
  fig_num : nat;
  fig_size : option (Z * Z);   (* [figsize]; [None]: the default size *)
  fig_cells : list cell
}.

(** An [Axes] object: the figure it belongs to and its position in
    row-major order. *)
Record Axes := MkAxes { ax_fig : nat; ax_idx : nat }.

(** What [plt.subplots] returns as its second component with the default
    [squeeze=True]: the lone [Axes] for a 1x1 grid, an array of [Axes]
    otherwise. *)
Inductive axes_value :=
| SingleAxes (ax : Axes)
| AxesArray (ashape : list nat) (flat : list Axes).

(** ** The [args] namespace *)

Record Namespace := MkArgs {
  wandb : option bool;
  exp_name : option string;
  lora_ckpt : option string;
  testing_ckpt : option string;
  eval_datasets : list string;
  data_location : string;
  num_classes : option Z;
  ignore_index : option Z
}.

Inductive device := Cuda0 | Cpu.

(** Calls that acquire a resource or produce output, in the order they
    are made. *)
Inductive event :=
| EvSubplots (nrows ncols : Z)
| EvSavefig (path : string)
| EvShow
| EvClose
| EvDevice (d : device)
| EvDeviceCount
| EvDataset (name root : string)
| EvDataLoader (name : string)
| EvGetModel (ckpt : option string)
| EvLoadState (ckpt : string)
| EvModelTo (d : device)
| EvGenerate (batch : nat).

(** ** The world *)

Definition loc := nat.

Record world := World {
  heap : gmap loc (list ImageType);   (* Python list objects *)
  figs : list figure;                 (* open figures, the current one first *)
  saved : list (string * figure);     (* completed savefig calls: path given, figure *)
  displayed : list figure;            (* figures handed to plt.show *)
  dirs : gmap string (list string);   (* directories and their entries *)
  args : Namespace;                   (* the args object *)
  log : list event
}.

(** What [plt.savefig(path)] does outside the program, given the
    directory tree: the exception it raises, if any (a missing
    directory, an unsupported format), and the directory tree it leaves.
    The name and format of the file it writes are the library's. The
    outcome is taken to depend on the path and the directory tree, not
    on what is drawn on the figure. *)
Class Backend := {
  savefig_io : string -> gmap string (list string) ->
               option exn * gmap string (list string)
}.

Definition set_heap (h : gmap loc (list ImageType)) (w : world) : world :=
  World h (figs w) (saved w) (displayed w) (dirs w) (args w) (log w).
Definition set_figs (f : list figure) (w : world) : world :=
  World (heap w) f (saved w) (displayed w) (dirs w) (args w) (log w).
Definition set_saved (f : list (string * figure)) (w : world) : world :=
  World (heap w) (figs w) f (displayed w) (dirs w) (args w) (log w).
Definition set_dirs (d : gmap string (list string)) (w : world) : world :=
  World (heap w) (figs w) (saved w) (displayed w) d (args w) (log w).
Definition set_displayed (d : list figure) (w : world) : world :=
  World (heap w) (figs w) (saved w) d (dirs w) (args w) (log w).
Definition set_args (a : Namespace) (w : world) : world :=
  World (heap w) (figs w) (saved w) (displayed w) (dirs w) a (log w).
Definition set_log (l : list event) (w : world) : world :=
  World (heap w) (figs w) (saved w) (displayed w) (dirs w) (args w) l.

(** ** State and exception monad *)

Definition M (A : Type) : Type := world -> result A * world.

Definition ret {A} (a : A) : M A := fun w => (Ok a, w).

Definition raise {A} (e : exn) : M A := fun w => (Raise e, w).

Definition bind {A B} (m : M A) (k : A -> M B) : M B :=
  fun w =>
    match m w with
    | (Ok a, w') => k a w'
    | (Raise e, w') => (Raise e, w')
    end.

Declare Scope py_scope.
Delimit Scope py_scope with py.
Notation "x <- m ;; k" := (bind m (fun x => k))
  (at level 100, m at next level, right associativity) : py_scope.
Notation "m ;; k" := (bind m (fun _ => k))
  (at level 100, right associativity) : py_scope.
Local Open Scope py_scope.

Definition get : M world := fun w => (Ok w, w).
Definition modify (f : world -> world) : M unit := fun w => (Ok tt, f w).
Definition emit (e : event) : M unit := modify (fun w => set_log (log w ++ [e]) w).

(** ** List objects *)

(** [len(l)]. *)
Definition list_len (l : loc) : M nat :=
  w <- get ;;
  match heap w !! l with
  | Some xs => ret (length xs)
  | None => raise (TypeError "not a list")
  end.

(** [l[i]]. *)
Definition list_get (l : loc) (i : nat) : M ImageType :=
  w <- get ;;
  match heap w !! l with
  | Some xs => match xs !! i with
               | Some x => ret x
               | None => raise IndexError
               end
  | None => raise (TypeError "not a list")
  end.

(** [l[i] = x]. *)
Definition list_set (l : loc) (i : nat) (x : ImageType) : M unit :=
  w <- get ;;
  match heap w !! l with
  | Some xs => if (i <? length xs)%nat
               then modify (set_heap (<[l := <[i := x]> xs]> (heap w)))
               else raise IndexError
  | None => raise (TypeError "not a list")
  end.

(** A list display [[x; y; ...]]: a new list object. *)
Definition list_new (xs : list ImageType) : M loc :=
  w <- get ;;
  let l := fresh (dom (heap w)) in
  modify (set_heap (<[l := xs]> (heap w))) ;;
  ret l.

(** ** pyplot *)

(** The number pyplot gives a new figure: one more than the largest
    number in use. *)
Definition next_fig_num (fs : list figure) : nat :=
  S (foldr Nat.max 0%nat (fig_num <$> fs)).

(** Shape of the array of [Axes] after squeezing. *)
Definition squeezed_shape (nrows ncols : Z) : list nat :=
  if nrows =? 1 then [Z.to_nat ncols]
  else if ncols =? 1 then [Z.to_nat nrows]
  else [Z.to_nat nrows; Z.to_nat ncols].

(** The message of the [ValueError] matplotlib's grid layout raises for
    a count that is not positive: the rows are checked first. *)
Definition layout_error (nrows ncols : Z) : string :=
  if nrows <=? 0
  then "Number of rows must be a positive integer, not " +:+ repr_int nrows
  else "Number of columns must be a positive integer, not " +:+ repr_int ncols.

(** The message of the [ValueError] a figure raises for a negative
    [figsize]. *)
Definition figsize_error (figsize : Z * Z) : string :=
  "figure size must be positive finite not (" +:+ repr_int (fst figsize) +:+ ", "
    +:+ repr_int (snd figsize) +:+ ")".

(** [plt.subplots(nrows=nrows, ncols=ncols, figsize=figsize)]: a
    negative [figsize] is rejected before any figure is registered;
    otherwise the new figure is created and made current, and laying out
    the grid then raises [ValueError] unless both counts are positive.
    With the default [squeeze=True] a single subplot is returned as the
    [Axes] itself, several as an array in row-major order. *)
Definition plt_subplots (nrows ncols : Z) (figsize : Z * Z) : M axes_value :=
  emit (EvSubplots nrows ncols) ;;
  w <- get ;;
  if (fst figsize <? 0) || (snd figsize <? 0)
  then raise (ValueError (figsize_error figsize))
  else
  let num := next_fig_num (figs w) in
  modify (set_figs (Figure num (Some figsize) [] :: figs w)) ;;
  if (nrows <=? 0) || (ncols <=? 0)
  then raise (ValueError (layout_error nrows ncols))
  else
    let n := Z.to_nat (nrows * ncols) in
    modify (set_figs (Figure num (Some figsize) (replicate n blank_cell) :: figs w)) ;;
    if (nrows =? 1) && (ncols =? 1)
    then ret (SingleAxes (MkAxes num 0))
    else ret (AxesArray (squeezed_shape nrows ncols) (MkAxes num <$> seq 0 n)).

(** [axes.flat]: an attribute of numpy arrays, not of [Axes]. *)
Definition axes_flat (axes : axes_value) : M (list Axes) :=
  match axes with
  | SingleAxes _ => raise (AttributeError "'Axes' object has no attribute 'flat'")
  | AxesArray _ flat => ret flat
  end.

Definition on_cell (ax : Axes) (f : cell -> cell) (g : figure) : figure :=
  if (fig_num g =? ax_fig ax)%nat
  then Figure (fig_num g) (fig_size g) (alter f (ax_idx ax) (fig_cells g))
  else g.

(** A method of an [Axes] object acts on its subplot in its figure. *)
Definition update_ax (ax : Axes) (f : cell -> cell) : M unit :=
  modify (fun w => set_figs (on_cell ax f <$> figs w) w).

Definition add_image (im : ndarray * option string) (c : cell) : cell :=
  Cell (c_images c ++ [im]) (c_title c) (c_axis_on c).
Definition put_title (t : string) (c : cell) : cell :=
  Cell (c_images c) (Some t) (c_axis_on c).
Definition hide_axis (c : cell) : cell :=
  Cell (c_images c) (c_title c) false.

(** [ax.imshow(a, cmap=cmap)]. *)
Definition ax_imshow (ax : Axes) (a : ndarray) (cmap : option string) : M unit :=
  update_ax ax (add_image (a, cmap)).

(** [ax.set_title(t)]. *)
Definition ax_set_title (ax : Axes) (t : string) : M unit :=
  update_ax ax (put_title t).

(** [ax.axis("off")]. *)
Definition ax_axis_off (ax : Axes) : M unit :=
  update_ax ax hide_axis.

(** [plt.gcf()]: the current figure, created when there is none. *)
Definition plt_gcf : M figure :=
  w <- get ;;
  match figs w with
  | g :: _ => ret g
  | [] => let g := Figure (next_fig_num []) None [] in
          modify (set_figs [g]) ;; ret g
  end.

(** [plt.savefig(path)]: hands the current figure to the backend, which
    writes it or raises. *)
Definition plt_savefig `{Backend} (path : string) : M unit :=
  emit (EvSavefig path) ;;
  g <- plt_gcf ;;
  w <- get ;;
  modify (set_dirs (snd (savefig_io path (dirs w)))) ;;
  match fst (savefig_io path (dirs w)) with
  | Some e => raise e
  | None => modify (fun w => set_saved (saved w ++ [(path, g)]) w)
  end.

(** [plt.show()]: displays every open figure. *)
Definition plt_show : M unit :=
  emit EvShow ;;
  modify (fun w => set_displayed (displayed w ++ figs w) w).

(** [plt.close()]: closes the current figure, if any. *)
Definition plt_close : M unit :=
  emit EvClose ;;
  modify (fun w => set_figs (tail (figs w)) w).

(** Truth value of an [Optional[str]]. *)
Definition truthy (s : option string) : bool :=
  match s with
  | Some p => negb (String.eqb p EmptyString)
  | None => false
  end.

(** ** [plot_images_grid] *)

Section Plot.
Context `{Imaging} `{Backend}.

(** Lines 50-52: [for idx, img in enumerate(images)], replacing PIL
    entries in place; [n] entries remain from index [idx] on. *)
Fixpoint normalize_loop (images : loc) (idx n : nat) : M unit :=
  match n with
  | O => ret tt
  | S n' =>
      img <- list_get images idx ;;
      match img with
      | Pil p =>
          match pillow_to_cv2 p with
          | Some a => list_set images idx (Nd a)
          | None => raise Cv2Error
          end
      | Nd _ => ret tt
      end ;;
      normalize_loop images (S idx) n'
  end.

(** Lines 63-70: what is drawn in the cell of an image. *)
Definition render_image (images : loc) (titles : option (list string))
    (cmap : option string) (idx : nat) (ax : Axes) : M unit :=
  img <- list_get images idx ;;
  match img with
  | Nd a =>
      if (ndim a =? 2)%nat then ax_imshow ax a cmap
      else match cvtColor_BGR2RGB a with
           | Some rgb => ax_imshow ax rgb None
           | None => raise Cv2Error
           end
  | Pil _ => raise (AttributeError "ndim")
  end ;;
  match titles with
  | Some ts =>
      match ts !! idx with
      | Some t => ax_set_title ax t
      | None => ret tt
      end
  | None => ret tt
  end.

(** Lines 63-72: the body of the loop over the cells. *)
Definition render_cell (images : loc) (titles : option (list string))
    (cmap : option string) (idx : nat) (ax : Axes) : M unit :=
  n <- list_len images ;;
  (if (idx <? n)%nat then render_image images titles cmap idx ax else ret tt) ;;
  ax_axis_off ax.

(** Lines 62-72: [for idx, ax in enumerate(axes.flat)]. *)
Fixpoint render_loop (images : loc) (titles : option (list string))
    (cmap : option string) (idx : nat) (axs : list Axes) : M unit :=
  match axs with
  | [] => ret tt
  | ax :: rest =>
      render_cell images titles cmap idx ax ;;
      render_loop images titles cmap (S idx) rest
  end.

Definition grid_error : string :=
  "The number of images exceeds the grid size. Please increase the grid size or reduce the number of images.".

Definition plot_images_grid (images : loc) (grid_size : Z * Z)
    (titles : option (list string)) (size : Z * Z) (cmap : option string)
    (save_path : option string) : M unit :=
  let '(nrows, ncols) := grid_size in
  n <- list_len images ;;
  normalize_loop images 0 n ;;
  n <- list_len images ;;
  if Z.of_nat n >? nrows * ncols then raise (ValueError grid_error)
  else
    axes <- plt_subplots nrows ncols size ;;
    flat <- axes_flat axes ;;
    render_loop images titles cmap 0 flat ;;
    (if truthy save_path
     then plt_savefig (default EmptyString save_path)
     else plt_show) ;;
    plt_close.

End Plot.

(** ** [bounding_box_prompt] *)

(** A dataset sample: image tensor [3,H,W], name and boxes [N,4]. *)
Record Sample := MkSample { s_image : ndarray; s_name : string; s_bboxes : ndarray }.

Record Dataset := MkDataset {
  ds_num_classes : Z;
  ds_ignore_index : Z;
  ds_samples : list Sample
}.

(** [sv.Detections(xyxy=..., mask=..., class_id=...)]. *)
Record Detections := MkDetections {
  xyxy : ndarray;
  mask : ndarray;
  class_id : list Z
}.

(** The collaborators the driver consumes: torch's device queries, the
    [src.datasets] module ([None]: no class of that name), [get_model],
    loading a saved state ([None]: the load fails), the mask generator
    and the two annotators, and the array operations applied to their
    results. *)
Class Collaborators := {
  Model : Type;
  cuda_is_available : bool;
  cuda_device_count : nat;
  dataset_class : string -> option (string -> Dataset);
  get_model : Namespace -> Dataset -> Model;
  load_state_dict : Model -> string -> device -> option Model;
  sam_generate : Model -> list ndarray -> list ndarray -> list ndarray;
  chw_to_hwc : ndarray -> ndarray;
  instance_presence : ndarray -> ndarray;
  mask_annotate : ndarray -> Detections -> ndarray;
  box_annotate : ndarray -> Detections -> ndarray
}.

(** [os.path.isdir(p)]. *)
Definition os_path_isdir (p : string) : M bool :=
  w <- get ;; ret (bool_decide (is_Some (dirs w !! p))).

(** [os.listdir(p)]. *)
Definition os_listdir (p : string) : M (list string) :=
  w <- get ;;
  match dirs w !! p with
  | Some entries => ret entries
  | None => raise FileNotFoundError
  end.

(** The filter of line 90: ['.pt' in x or '.pth' in x]. *)
Definition is_ckpt_entry (x : string) : bool :=
  contains ".pt" x || contains ".pth" x.

(** Lines 88-92: the checkpoints to evaluate. *)
Definition resolve_ckpts (ckpt : string) : M (list string) :=
  d <- os_path_isdir ckpt ;;
  if d then
    entries <- os_listdir ckpt ;;
    ret (os_path_join ckpt <$> List.filter is_ckpt_entry entries)
  else ret [ckpt].

(** [DataLoader(dataset, batch_size=2, shuffle=False, ...)]. *)
Fixpoint batches (xs : list Sample) : list (list Sample) :=
  match xs with
  | a :: b :: rest => [a; b] :: batches rest
  | [a] => [[a]]
  | [] => []
  end.

(** [for idx, x in enumerate(xs)], counting from [idx]. *)
Fixpoint for_enumerate {A} (idx : nat) (xs : list A) (body : nat -> A -> M unit) : M unit :=
  match xs with
  | [] => ret tt
  | x :: rest => body idx x ;; for_enumerate (S idx) rest body
  end.

(** [len(a)] of an array: its first dimension. *)
Definition array_len (a : ndarray) : nat := hd 0%nat (shape a).

Definition set_wandb (v : option bool) (a : Namespace) : Namespace :=
  MkArgs v (exp_name a) (lora_ckpt a) (testing_ckpt a) (eval_datasets a)
         (data_location a) (num_classes a) (ignore_index a).
Definition set_lora_ckpt (v : option string) (a : Namespace) : Namespace :=
  MkArgs (wandb a) (exp_name a) v (testing_ckpt a) (eval_datasets a)
         (data_location a) (num_classes a) (ignore_index a).
Definition set_classes (n i : Z) (a : Namespace) : Namespace :=
  MkArgs (wandb a) (exp_name a) (lora_ckpt a) (testing_ckpt a) (eval_datasets a)
         (data_location a) (Some n) (Some i).

(** The message of [getattr(datasets, name)] for a missing class. *)
Definition no_dataset (name : string) : string :=
  "module 'src.datasets' has no attribute '" +:+ name +:+ "'".

Section Driver.
Context `{Imaging} `{Backend} `{Collaborators}.

(** [t.numpy()] of a tensor on [dev]: only host tensors convert. *)
Definition tensor_numpy (dev : device) (t : ndarray) : M ndarray :=
  match dev with
  | Cpu => ret t
  | Cuda0 => raise (TypeError "can't convert cuda:0 device type tensor to numpy. Use Tensor.cpu() to copy the tensor to host memory first.")
  end.

(** Lines 131-146: annotate one image of the batch and plot it beside
    its segmentation. The boxes were moved to [dev] on line 121. *)
Definition show_prediction (dev : device) (inp boxes : list ndarray) (i : nat)
    (m : ndarray) : M unit :=
  match inp !! i with
  | None => raise IndexError
  | Some x =>
      let image := chw_to_hwc x in
      let instances := instance_presence m in
      match boxes !! i with
      | None => raise IndexError
      | Some bx =>
          xyxy <- tensor_numpy dev bx ;;
          let instance_detections :=
            MkDetections xyxy instances (replicate (array_len bx) 0) in
          let annotated_image_semantic := mask_annotate image instance_detections in
          let image := box_annotate image instance_detections in
          images <- list_new [Nd image; Nd annotated_image_semantic] ;;
          plot_images_grid images (1, 2)
            (Some ["source image"; "instance segmentation"])
            (12, 12) (Some "gray") None
      end
  end.

(** Lines 117-146: one batch of the loader. *)
Definition run_batch (dev : device) (model : Model) (k : nat) (batch : list Sample)
    : M unit :=
  let inp := s_image <$> batch in
  let boxes := s_bboxes <$> batch in
  emit (EvGenerate k) ;;
  let masks := sam_generate model inp boxes in
  for_enumerate 0 masks (show_prediction dev inp boxes).

(** Lines 102-146: one checkpoint on one dataset. *)
Definition run_ckpt (dev : device) (dataset : Dataset) (fold_ckpt : string) : M unit :=
  modify (fun w => set_args (set_lora_ckpt (Some fold_ckpt) (args w)) w) ;;
  w <- get ;;
  emit (EvGetModel (lora_ckpt (args w))) ;;
  let model := get_model (args w) dataset in
  model <-
    (if truthy (testing_ckpt (args w)) then
       emit (EvLoadState fold_ckpt) ;;
       match load_state_dict model fold_ckpt dev with
       | Some m => ret m
       | None => raise FileNotFoundError
       end
     else ret model) ;;
  emit (EvModelTo dev) ;;
  for_enumerate 0 (batches (ds_samples dataset)) (run_batch dev model).

(** Lines 94-146: one evaluation dataset. *)
Definition run_dataset (dev : device) (ckpts : list string) (dataset_name : string) : M unit :=
  match dataset_class dataset_name with
  | None => raise (AttributeError (no_dataset dataset_name))
  | Some cls =>
      w <- get ;;
      emit (EvDataset dataset_name (data_location (args w))) ;;
      let dataset := cls (data_location (args w)) in
      emit (EvDataLoader dataset_name) ;;
      modify (fun w => set_args
                (set_classes (ds_num_classes dataset) (ds_ignore_index dataset) (args w)) w) ;;
      for_enumerate 0 ckpts (fun _ => run_ckpt dev dataset)
  end.

Definition bounding_box_prompt : M unit :=
  modify (fun w => set_args (set_wandb (Some false) (args w)) w) ;;
  w <- get ;;
  match exp_name (args w) with
  | None => raise AssertionError
  | Some _ =>
      let dev := if cuda_is_available then Cuda0 else Cpu in
      emit (EvDevice dev) ;;
      emit EvDeviceCount ;;
      let ckpt := match lora_ckpt (args w) with
                  | Some c => Some c
                  | None => testing_ckpt (args w)
                  end in
      match ckpt with
      | None => raise (TypeError "stat: path should be string, bytes, os.PathLike or integer, not NoneType")
      | Some ckpt =>
          ckpts <- resolve_ckpts ckpt ;;
          for_enumerate 0 (eval_datasets (args w)) (fun _ => run_dataset dev ckpts)
      end
  end.

End Driver.

(** ** Specification vocabulary *)

(** The entry line 52 leaves in the list for [img]; [None] when the
    conversion raises. *)
Definition normalize_image `{Imaging} (img : ImageType) : option ImageType :=
  match img with
  | Pil p => Nd <$> pillow_to_cv2 p
  | Nd a => Some (Nd a)
  end.

(** Every entry of [xs] converts, giving [nxs]. *)
Definition normalizes `{Imaging} (xs nxs : list ImageType) : Prop :=
  Forall2 (fun img n => normalize_image img = Some n) xs nxs.

(** The list lines 50-52 leave behind: entries are replaced up to the
    first one the conversion rejects. *)
Fixpoint normalize_prefix `{Imaging} (xs : list ImageType) : list ImageType :=
  match xs with
  | [] => []
  | img :: rest =>
      match normalize_image img with
      | Some n => n :: normalize_prefix rest
      | None => img :: rest
      end
  end.

(** How [imshow] receives an array: as it is with the [cmap] argument
    when two-dimensional, converted and without colormap otherwise;
    [None] when the conversion raises. *)
Definition shown_as `{Imaging} (a : ndarray) (cmap : option string)
    : option (ndarray * option string) :=
  if (ndim a =? 2)%nat then Some (a, cmap)
  else (fun rgb => (rgb, None)) <$> cvtColor_BGR2RGB a.

(** The title given for index [i], if any. *)
Definition title_for (titles : option (list string)) (i : nat) : option string :=
  ts ← titles; ts !! i.

Definition with_title (t : option string) (c : cell) : cell :=
  match t with
  | Some t => put_title t c
  | None => c
  end.

(** What one pass of the loop body does to cell [idx] when the list
    holds [xs]; [None] when it raises. *)
Definition cell_effect `{Imaging} (xs : list ImageType) (titles : option (list string))
    (cmap : option string) (idx : nat) : option (cell -> cell) :=
  match xs !! idx with
  | None => Some hide_axis
  | Some (Nd a) =>
      (fun im c => hide_axis (with_title (title_for titles idx) (add_image im c)))
        <$> shown_as a cmap
  | Some (Pil _) => None
  end.

(** The simpler filter line 90 is compared with: ['.pt' in x] alone. *)
Definition is_ckpt_entry_simple (x : string) : bool := contains ".pt" x.

(** [g] is what a call taking [w] to [w'] produced: saved by
    [plt.savefig(save_path)] and not displayed when the path is truthy,
    displayed (with the figures already open) and not saved otherwise. *)
Definition delivered (w w' : world) (save_path : option string) (g : figure) : Prop :=
  if truthy save_path
  then saved w' = saved w ++ [(default EmptyString save_path, g)]
       /\ displayed w' = displayed w
  else displayed w' = displayed w ++ g :: figs w
       /\ saved w' = saved w.

(** ** Properties of computations *)

(** [m] leaves every list object as it is, whatever its outcome. *)
Definition keeps_heap {A} (m : M A) : Prop :=
  forall w, heap (snd (m w)) = heap w.

(** [m] always returns normally. *)
Definition never_raises (m : M unit) : Prop :=
  forall w, fst (m w) = Ok tt.

(** What decides the outcome of a call: the list objects and the
    directory tree. *)
Definition inputs (w : world) := (heap w, dirs w).

(** The outcomes of [m1] and [m2] agree whenever they start from worlds
    holding the same list objects and directories. *)
Definition same_outcome {A} (m1 m2 : M A) : Prop :=
  forall w1 w2, inputs w1 = inputs w2 ->
    fst (m1 w1) = fst (m2 w2) /\ inputs (snd (m1 w1)) = inputs (snd (m2 w2)).

(** ** Sample inputs *)

(** Exchange the first and third channel of every pixel. *)
Fixpoint swap_channels (px : list Z) : list Z :=
  match px with
  | x :: y :: z :: rest => z :: y :: x :: swap_channels rest
  | _ => px
  end.

(** Exchange the first and third channel of every pixel and drop the
    fourth. *)
Fixpoint swap_drop_alpha (px : list Z) : list Z :=
  match px with
  | x :: y :: z :: _ :: rest => z :: y :: x :: swap_drop_alpha rest
  | _ => []
  end.

(** A sample imaging library, for the instances below. As OpenCV's
    colour conversions do, it takes three- or four-channel data, gives
    three channels, and rejects everything else. *)
Definition reference_imaging : Imaging := {|
  pillow_to_cv2 p :=
    let '(width, height) := pil_size p in
    if String.eqb (pil_mode p) "RGB"
    then Some (NdArray [height; width; 3%nat] (swap_channels (pil_data p)))
    else if String.eqb (pil_mode p) "RGBA"
    then Some (NdArray [height; width; 3%nat] (swap_drop_alpha (pil_data p)))
    else None;
  cvtColor_BGR2RGB a :=
    match shape a with
    | [h; w; 3%nat] => Some (NdArray [h; w; 3%nat] (swap_channels (data a)))
    | [h; w; 4%nat] => Some (NdArray [h; w; 3%nat] (swap_drop_alpha (data a)))
    | _ => None
    end
|}.

(** A sample backend, for the instances below: nothing can be written
    under [/nonexistent], everything else is written without a change to
    the directories listed. *)
Definition sample_backend : Backend := {|
  savefig_io path d :=
    if startswith "/nonexistent" path then (Some FileNotFoundError, d) else (None, d)
|}.

(** A grayscale image with alpha (two channels), which the sample
    library rejects. *)
Definition gray_alpha_photo : PilImage := MkPil "LA" (1, 1)%nat [5; 255].

(** A [side] x [side] grayscale checkerboard. *)
Definition checkerboard (side : nat) : ndarray :=
  NdArray [side; side]
    (flat_map (fun r => (fun c => Z.of_nat ((r + c) mod 2) * 255) <$> seq 0 side) (seq 0 side)).

Definition bgr_pixel : ndarray := NdArray [1; 1; 3]%nat [10; 20; 30].

Definition rgb_photo : PilImage := MkPil "RGB" (1, 1)%nat [30; 20; 10].

Definition no_args : Namespace := MkArgs None None None None [] EmptyString None None.

(** A world with nothing open or written, holding one list object. *)
Definition world_with (imgs : list ImageType) : world :=
  World {[ 0%nat := imgs ]} [] [] [] ∅ no_args [].

(** Collaborators for a one-sample dataset named [Europa]: the model is
    the checkpoint it was built for, the generator returns one mask per
    image. *)
Definition sample_collaborators : Collaborators := {|
  Model := option string;
  cuda_is_available := false;
  cuda_device_count := 0;
  dataset_class name :=
    if String.eqb name "Europa"
    then Some (fun _ => MkDataset 2 255 [MkSample bgr_pixel "tile0" (NdArray [1; 4]%nat [0; 0; 1; 1])])
    else None;
  get_model a _ := lora_ckpt a;
  load_state_dict m _ _ := Some m;
  sam_generate _ inp _ := (fun _ => NdArray [1; 2; 1; 1]%nat [0; 1]) <$> inp;
  chw_to_hwc a := a;
  instance_presence m := m;
  mask_annotate a _ := a;
  box_annotate a _ := a
|}.

(** Arguments naming an experiment, one checkpoint file and the one
    dataset. *)
Definition europa_args (name : option string) : Namespace :=
  MkArgs None name (Some "lora.pt") None ["Europa"] "/data" None None.

Definition world_of_args (a : Namespace) : world :=
  World ∅ [] [] [] ∅ a [].

(** Rewrites one [Axes] method call by the equation [L] for [update_ax]. *)
Ltac ax_step_with L :=
  unfold ax_imshow, ax_set_title, ax_axis_off;
  erewrite L by (first [eassumption | reflexivity]);
  cbv beta iota.

(** ** Frame conditions *)

(** [m] leaves the part [proj] of the world as it is, whatever its
    outcome. *)
Definition keeps {X A} (proj : world -> X) (m : M A) : Prop :=
  forall w, proj (snd (m w)) = proj w.

(** [m] leaves [proj] as it is when it raises. *)
Definition keeps_on_raise {X A} (proj : world -> X) (m : M A) : Prop :=
  forall w e, fst (m w) = Raise e -> proj (snd (m w)) = proj w.

(** [proj] looks at neither the list objects nor the figures. *)
Definition ignores_drawing {X} (proj : world -> X) : Prop :=
  (forall h w, proj (set_heap h w) = proj w) /\
  (forall f w, proj (set_figs f w) = proj w).

(** From a world satisfying [I], [m] keeps [I] and appends to the log
    only events satisfying [P]. *)
Definition emits (I : world -> Prop) (P : event -> Prop) {A} (m : M A) : Prop :=
  forall w, I w ->
    I (snd (m w)) /\
    exists evs, log (snd (m w)) = log w ++ evs /\ Forall P evs.

(** Whether the driver loads saved states: [if args.testing_ckpt]. *)
Definition loads_is (b : bool) (w : world) : Prop :=
  truthy (testing_ckpt (args w)) = b.

(** The events of a driver run: a model is never built without a
    checkpoint in [args.lora_ckpt], no figure is ever saved, and a state
    is loaded only when [loads]. *)
Definition driver_event (loads : bool) (e : event) : Prop :=
  match e with
  | EvGetModel None => False
  | EvSavefig _ => False
  | EvLoadState _ => loads = true
  | _ => True
  end.

(** What lies outside pyplot's figures and the list objects: the
    figures saved, the display, the directory tree and [args]. *)
Definition surroundings (w : world) :=
  (saved w, displayed w, dirs w, args w).

(** What a call that saves nothing leaves alone: the figures saved,
    the directory tree and [args]. *)
Definition unsaved (w : world) := (saved w, dirs w, args w).

(** What has been written and displayed. *)
Definition output (w : world) := (saved w, displayed w).

(** What the driver never writes: saved figures, the directory tree and
    the arguments it only reads. *)
Definition driver_inputs (w : world) :=
  (saved w, dirs w, wandb (args w), exp_name (args w), testing_ckpt (args w),
   eval_datasets (args w), data_location (args w)).

(** An entry that is an array already. *)
Definition is_array (img : ImageType) : Prop := exists a, img = Nd a.

(** Line 86: the checkpoint path the driver resolves. *)
Definition chosen_ckpt (a : Namespace) : option string :=
  match lora_ckpt a with
  | Some c => Some c
  | None => testing_ckpt a
  end.

(** The events of constructing the datasets [names] under [root]. *)
Definition dataset_events (root : string) (names : list string) : list event :=
  flat_map (fun name => [EvDataset name root; EvDataLoader name]) names.

(** ** More sample inputs *)

(** A world whose only directory is [dir], run with the arguments [a]. *)
Definition listing_world (dir : string) (entries : list string) (a : Namespace) : world :=
  World ∅ [] [] [] {[ dir := entries ]} a [].

(** Arguments asking for a dataset the sample collaborators lack. *)
Definition mars_args : Namespace :=
  MkArgs None (Some "run1") None (Some "best.pth") ["Mars"] "/data" None None.

Definition two_channel : ndarray := NdArray [1; 1; 2]%nat [7; 9].

(** * Properties *)

(** ** Strings *)

Lemma startswith_spec (pre s : string) :
  startswith pre s = true <-> exists post, s = pre +:+ post.
Proof.
  revert s. induction pre as [|a pre IH]; intros s; simpl.
  - split; [intros _; by exists s | done].
  - destruct s as [|b s].
    + split; [done | intros [post Hpost]; discriminate].
    + rewrite andb_true_iff, Ascii.eqb_eq, IH. split.
      * intros [-> [post ->]]. by exists post.
      * intros [post Hpost]. injection Hpost as -> ->. eauto.
Qed.

Lemma contains_spec (sub s : string) :
  contains sub s = true <-> exists pre post, s = pre +:+ sub +:+ post.
Proof.
  induction s as [|c s IH]; simpl.
  - rewrite startswith_spec. split.
    + intros [post Hpost]. by exists EmptyString, post.
    + intros [[|? ?] [post Hpost]]; [by exists post | discriminate].
  - rewrite orb_true_iff, startswith_spec, IH. split.
    + intros [[post Hpost] | [pre [post ->]]].
      * by exists EmptyString, post.
      * by exists (String c pre), post.
    + intros [[|c' pre] [post Hpost]]; simpl in Hpost.
      * left. by exists post.
      * right. injection Hpost as -> ->. eauto.
Qed.

Lemma append_assoc (a b c : string) : (a +:+ b) +:+ c = a +:+ (b +:+ c).
Proof. induction a as [|x a IH]; [done |]. change (String x ((a +:+ b) +:+ c) = String x (a +:+ (b +:+ c))). by f_equal. Qed.

(** A longer needle occurs only where its prefix does. *)
Lemma contains_prefix (sub ext s : string) :
  contains (sub +:+ ext) s = true -> contains sub s = true.
Proof.
  rewrite !contains_spec. intros (pre & post & ->).
  exists pre, (ext +:+ post). by rewrite append_assoc.
Qed.

Lemma is_ckpt_entry_simplifies (x : string) :
  is_ckpt_entry x = is_ckpt_entry_simple x.
Proof.
  unfold is_ckpt_entry, is_ckpt_entry_simple.
  destruct (contains ".pt" x) eqn:Hpt; [done |]. simpl.
  destruct (contains ".pth" x) eqn:Hpth; [| done].
  apply (contains_prefix ".pt" "h") in Hpth. congruence.
Qed.

(** C10: the filter of line 90, ['.pt' in x or '.pth' in x], agrees
    with the simpler ['.pt' in x] on every name, so on every directory
    listing both select the same entries, in the same order. *)
Theorem ckpt_filter_equals_simple_filter :
  (forall x, is_ckpt_entry x = is_ckpt_entry_simple x) /\
  (forall x, contains ".pth" x = true -> contains ".pt" x = true) /\
  (forall entries : list string,
     List.filter is_ckpt_entry entries = List.filter is_ckpt_entry_simple entries).
Proof.
  split; [apply is_ckpt_entry_simplifies |]. split.
  - intros x. apply (contains_prefix ".pt" "h").
  - intros entries. induction entries as [|x xs IH]; simpl; [done |].
    by rewrite is_ckpt_entry_simplifies, IH.
Qed.

(** ** The checkpoint resolver *)

Lemma endswith_sep_spec (s : string) :
  endswith_sep s = true <-> exists pre, s = pre +:+ "/".
Proof.
  induction s as [|a s IH]; simpl.
  - split; [done |]. intros [[|? ?] Hpre]; discriminate.
  - destruct s as [|b s].
    + rewrite Ascii.eqb_eq. split.
      * intros ->. by exists EmptyString.
      * intros [[|c [|? ?]] Hpre]; simpl in Hpre; [by injection Hpre | |];
          discriminate.
    + rewrite IH. split.
      * intros [pre ->]. by exists (String a pre).
      * intros [[|c pre] Hpre]; simpl in Hpre; [discriminate |].
        injection Hpre as -> Hpre. by exists pre.
Qed.

(** A file name joined to a directory path: one separator between them,
    unless the path brings its own. *)
Lemma os_path_join_name (a b : string) :
  (forall post, b <> "/" +:+ post) ->
  (a <> EmptyString -> (forall pre, a <> pre +:+ "/") ->
     os_path_join a b = a +:+ "/" +:+ b) /\
  (forall pre, a = pre +:+ "/" -> os_path_join a b = a +:+ b).
Proof.
  intros Hb. unfold os_path_join.
  assert (Hrel : startswith "/" b = false).
  { destruct (startswith "/" b) eqn:Hs; [| done].
    apply startswith_spec in Hs as [post ->]. by destruct (Hb post). }
  rewrite Hrel. split.
  - intros Ha Hsep. destruct (String.eqb_spec a EmptyString); [done |].
    destruct (endswith_sep a) eqn:He; [| done].
    apply endswith_sep_spec in He as [pre ->]. by destruct (Hsep pre).
  - intros pre ->.
    replace (endswith_sep (pre +:+ "/")) with true; [by rewrite orb_true_r |].
    symmetry. apply endswith_sep_spec. by exists pre.
Qed.

(** C3: for a directory the resolver returns, in listing order, one
    path for each entry whose name has '.pt' or '.pth' in it and for no
    other; the path of a file name is the directory path, a separator
    unless that path ends in one, and the name. For a path that is not a
    directory it returns that path alone. It reads the directory tree
    and changes nothing. *)
Theorem resolve_ckpts_spec (w : world) (ckpt : string) :
  match dirs w !! ckpt with
  | Some entries =>
      exists ps,
        resolve_ckpts ckpt w = (Ok ps, w) /\
        ps = os_path_join ckpt <$> List.filter is_ckpt_entry entries /\
        (forall x, is_ckpt_entry x = true <->
           (exists pre post, x = pre +:+ ".pt" +:+ post) \/
           (exists pre post, x = pre +:+ ".pth" +:+ post)) /\
        (forall p, In p ps <->
           exists x, In x entries /\ p = os_path_join ckpt x /\
                     (contains ".pt" x = true \/ contains ".pth" x = true)) /\
        (Forall (fun x => forall post, x <> "/" +:+ post) entries ->
           (ckpt <> EmptyString -> (forall pre, ckpt <> pre +:+ "/") ->
              ps = (fun x => ckpt +:+ "/" +:+ x) <$> List.filter is_ckpt_entry entries) /\
           (forall pre, ckpt = pre +:+ "/" ->
              ps = (fun x => ckpt +:+ x) <$> List.filter is_ckpt_entry entries))
  | None => resolve_ckpts ckpt w = (Ok [ckpt], w)
  end.
Proof.
  unfold resolve_ckpts, os_path_isdir, os_listdir, bind, get, ret.
  destruct (dirs w !! ckpt) as [entries|] eqn:Hdir; simpl; [| reflexivity].
  rewrite Hdir. simpl. eexists. split; [reflexivity |]. split; [reflexivity |].
  split; [| split].
  - intros x. unfold is_ckpt_entry. by rewrite orb_true_iff, !contains_spec.
  - intros p. rewrite in_map_iff. split.
    + intros (x & <- & Hx). apply filter_In in Hx as [Hx Hm].
      exists x. split; [done |]. split; [done |].
      by apply orb_true_iff.
    + intros (x & Hx & -> & Hm). exists x. split; [done |].
      apply filter_In. split; [done |]. by apply orb_true_iff.
  - intros Hnames.
    assert (Hsel : Forall (fun x => forall post, x <> "/" +:+ post)
                     (List.filter is_ckpt_entry entries)).
    { apply Forall_forall. intros x Hx. apply list_elem_of_In, filter_In in Hx as [Hx _].
      rewrite Forall_forall in Hnames. by apply Hnames, list_elem_of_In. }
    split.
    + intros Hne Hsep. apply Forall_fmap_ext_1.
      eapply Forall_impl; [exact Hsel |]. cbv beta. intros x Hx.
      by apply os_path_join_name.
    + intros pre Hpre. apply Forall_fmap_ext_1.
      eapply Forall_impl; [exact Hsel |]. cbv beta. intros x Hx.
      by apply (os_path_join_name ckpt x Hx) with pre.
Qed.

(** The scenario of the specification: of [fold0.pt], [fold1.pth] and
    [readme.txt] in [ckpts] the two checkpoints are returned, with the
    directory in front. *)
Lemma resolve_ckpts_spec_witness :
  let w := listing_world "ckpts" ["fold0.pt"; "fold1.pth"; "readme.txt"] no_args in
  resolve_ckpts "ckpts" w = (Ok ["ckpts/fold0.pt"; "ckpts/fold1.pth"], w).
Proof.
  intros w. generalize (resolve_ckpts_spec w "ckpts").
  assert (Hd : dirs w !! "ckpts" = Some ["fold0.pt"; "fold1.pth"; "readme.txt"])
    by reflexivity.
  rewrite Hd. intros (ps & Hrun & _ & _ & _ & Hfull).
  destruct Hfull as [Hsep _].
  { repeat constructor; intros post; discriminate. }
  rewrite Hrun, Hsep; [reflexivity | discriminate |].
  intros [|a [|b [|c [|d [|e [|f pre]]]]]]; discriminate.
Defined.

Example resolve_ckpts_file :
  fst (resolve_ckpts "best.pth" (world_with [])) = Ok ["best.pth"].
Proof. vm_compute. reflexivity. Qed.

(** ** The monad *)

Lemma bind_ok {A B} (m : M A) (k : A -> M B) (w w' : world) (a : A) :
  m w = (Ok a, w') -> bind m k w = k a w'.
Proof. unfold bind. by intros ->. Qed.

Lemma bind_raise {A B} (m : M A) (k : A -> M B) (w w' : world) (e : exn) :
  m w = (Raise e, w') -> bind m k w = (Raise e, w').
Proof. unfold bind. by intros ->. Qed.

Lemma set_heap_id (w : world) : set_heap (heap w) w = w.
Proof. by destruct w. Qed.

Lemma set_figs_id (w : world) : set_figs (figs w) w = w.
Proof. by destruct w. Qed.

(** ** Frames *)

Lemma keeps_ret {X A} (proj : world -> X) (a : A) : keeps proj (ret a).
Proof. done. Qed.

Lemma keeps_raise {X A} (proj : world -> X) (e : exn) : keeps proj (@raise A e).
Proof. done. Qed.

Lemma keeps_bind {X A B} (proj : world -> X) (m : M A) (k : A -> M B) :
  keeps proj m -> (forall a, keeps proj (k a)) -> keeps proj (bind m k).
Proof.
  intros Hm Hk w. unfold bind. specialize (Hm w).
  destruct (m w) as [[a|e] w1]; simpl in *; [| done].
  by rewrite Hk.
Qed.

Lemma keeps_weaken {X Y A} (proj : world -> X) (f : X -> Y) (m : M A) :
  keeps proj m -> keeps (fun w => f (proj w)) m.
Proof. intros Hm w. by rewrite Hm. Qed.

Lemma keeps_on_raise_bind {X A B} (proj : world -> X) (m : M A) (k : A -> M B) :
  keeps proj m -> (forall a, keeps_on_raise proj (k a)) -> keeps_on_raise proj (bind m k).
Proof.
  intros Hm Hk w e. unfold bind. specialize (Hm w).
  destruct (m w) as [[a|e'] w1]; simpl in *; [| done].
  intros He. by rewrite (Hk a w1 e He).
Qed.

Lemma keeps_on_raise_quiet {X} (proj : world -> X) (m : M unit) :
  never_raises m -> keeps_on_raise proj m.
Proof. intros Hm w e He. rewrite Hm in He. discriminate. Qed.

Lemma keeps_on_raise_raise {X A} (proj : world -> X) (e : exn) :
  keeps_on_raise proj (@raise A e).
Proof. done. Qed.

Lemma keeps_emit {X} (proj : world -> X) (ev : event) :
  (forall w l, proj (set_log l w) = proj w) -> keeps proj (emit ev).
Proof. intros Hp w. apply Hp. Qed.

Lemma keeps_for_enumerate {X A} (proj : world -> X) (xs : list A)
    (body : nat -> A -> M unit) (idx : nat) :
  (forall i x, keeps proj (body i x)) -> keeps proj (for_enumerate idx xs body).
Proof.
  intros Hb. revert idx. induction xs as [|x xs IH]; intros idx; [done |].
  apply keeps_bind; [apply Hb | intros; apply IH].
Qed.

(** *** Computations that only read or draw *)

Section Drawing.
Context {X : Type} (proj : world -> X) (Hproj : ignores_drawing proj).

Lemma drawing_list_len (l : loc) : keeps proj (list_len l).
Proof. intros w. unfold list_len, bind, get. simpl. by destruct (heap w !! l). Qed.

Lemma drawing_list_get (l : loc) (i : nat) : keeps proj (list_get l i).
Proof.
  intros w. unfold list_get, bind, get. simpl.
  destruct (heap w !! l) as [xs|]; [| done]. by destruct (xs !! i).
Qed.

Lemma drawing_list_set (l : loc) (i : nat) (x : ImageType) : keeps proj (list_set l i x).
Proof.
  intros w. unfold list_set, bind, get. simpl.
  destruct (heap w !! l) as [xs|]; [| done].
  destruct (i <? length xs)%nat; [apply Hproj | done].
Qed.

Lemma drawing_list_new (xs : list ImageType) : keeps proj (list_new xs).
Proof. intros w. apply Hproj. Qed.

Lemma drawing_update_ax (ax : Axes) (f : cell -> cell) : keeps proj (update_ax ax f).
Proof. intros w. apply Hproj. Qed.

Lemma drawing_axes_flat (axes : axes_value) : keeps proj (axes_flat axes).
Proof. by destruct axes. Qed.

Context `{Imaging}.

Lemma drawing_normalize_loop (l : loc) (n idx : nat) : keeps proj (normalize_loop l idx n).
Proof.
  revert idx. induction n as [|n IH]; intros idx; [done |].
  apply keeps_bind; [apply drawing_list_get |]. intros img.
  apply keeps_bind; [| intros; apply IH].
  destruct img as [a|p]; [done |].
  destruct (pillow_to_cv2 p); [apply drawing_list_set | done].
Qed.

Lemma drawing_render_cell l titles cmap idx ax :
  keeps proj (render_cell l titles cmap idx ax).
Proof.
  unfold render_cell, render_image.
  apply keeps_bind; [apply drawing_list_len |]. intros n.
  apply keeps_bind; [| intros; apply drawing_update_ax].
  destruct (idx <? n)%nat; [| done].
  apply keeps_bind; [apply drawing_list_get |]. intros img.
  apply keeps_bind.
  - destruct img as [a|p]; [| done].
    destruct (ndim a =? 2)%nat; [apply drawing_update_ax |].
    destruct (cvtColor_BGR2RGB a); [apply drawing_update_ax | done].
  - intros _. destruct titles as [ts|]; [| done].
    destruct (ts !! idx); [apply drawing_update_ax | done].
Qed.

Lemma drawing_render_loop l titles cmap axs idx :
  keeps proj (render_loop l titles cmap idx axs).
Proof.
  revert idx. induction axs as [|ax axs IH]; intros idx; [done |].
  apply keeps_bind; [apply drawing_render_cell | intros; apply IH].
Qed.

End Drawing.

Lemma dirs_ignores : ignores_drawing dirs.
Proof. by split. Qed.

(** ** Normalising the list in place *)

Lemma set_heap_twice (h1 h2 : gmap loc (list ImageType)) (w : world) :
  set_heap h2 (set_heap h1 w) = set_heap h2 w.
Proof. done. Qed.

Section PlotFacts.
Context `{Imaging}.

Lemma list_len_run (l : loc) (xs : list ImageType) (w : world) :
  heap w !! l = Some xs -> list_len l w = (Ok (length xs), w).
Proof. intros Hl. unfold list_len, bind, get. simpl. by rewrite Hl. Qed.

Lemma list_get_run (l : loc) (xs : list ImageType) (i : nat) (x : ImageType) (w : world) :
  heap w !! l = Some xs -> xs !! i = Some x -> list_get l i w = (Ok x, w).
Proof. intros Hl Hi. unfold list_get, bind, get. simpl. by rewrite Hl, Hi. Qed.

Lemma list_set_run (l : loc) (pre suf : list ImageType) (x y : ImageType) (w : world) :
  heap w !! l = Some (pre ++ x :: suf) ->
  list_set l (length pre) y w =
    (Ok tt, set_heap (<[l := pre ++ y :: suf]> (heap w)) w).
Proof.
  intros Hl. unfold list_set, bind, get. simpl. rewrite Hl.
  destruct (Nat.ltb_spec (length pre) (length (pre ++ x :: suf))) as [_ | Hge].
  - replace (length pre) with (length pre + 0)%nat at 1 by lia.
    by rewrite insert_app_r.
  - rewrite length_app in Hge. simpl in Hge. lia.
Qed.

(** One pass of the loop over an entry that converts. *)
Lemma normalize_step (l : loc) (pre suf : list ImageType) (img n : ImageType)
    (k : M unit) (w : world) :
  heap w !! l = Some (pre ++ img :: suf) ->
  normalize_image img = Some n ->
  (x <- list_get l (length pre) ;;
   match x with
   | Pil p =>
       match pillow_to_cv2 p with
       | Some a => list_set l (length pre) (Nd a)
       | None => raise Cv2Error
       end
   | Nd _ => ret tt
   end ;; k)%py w =
    k (set_heap (<[l := pre ++ n :: suf]> (heap w)) w).
Proof.
  intros Hl Hn.
  rewrite (bind_ok _ _ w w img); cycle 1.
  { apply list_get_run with (pre ++ img :: suf); [done |].
    by rewrite lookup_app_r, Nat.sub_diag by lia. }
  destruct img as [a | p]; simpl in Hn.
  - injection Hn as <-. rewrite (bind_ok _ _ w w tt) by done.
    by rewrite insert_id, set_heap_id.
  - destruct (pillow_to_cv2 p) as [a|]; [| done]. injection Hn as <-.
    by rewrite (bind_ok _ _ _ _ tt (list_set_run l pre suf (Pil p) (Nd a) w Hl)).
Qed.

Lemma normalize_loop_ok (l : loc) (suf nsuf : list ImageType) :
  normalizes suf nsuf ->
  forall (pre : list ImageType) (w : world),
    heap w !! l = Some (pre ++ suf) ->
    normalize_loop l (length pre) (length suf) w =
      (Ok tt, set_heap (<[l := pre ++ nsuf]> (heap w)) w).
Proof.
  induction 1 as [|img n suf nsuf Hn _ IH]; intros pre w Hl.
  - rewrite app_nil_r in *. simpl. by rewrite insert_id, set_heap_id.
  - cbn [length normalize_loop].
    rewrite (normalize_step l pre suf img n _ w Hl Hn).
    replace (S (length pre)) with (length (pre ++ [n]))
      by (rewrite length_app; simpl; lia).
    rewrite IH; cycle 1.
    { simpl. rewrite lookup_insert_eq. by rewrite <- app_assoc. }
    simpl. by rewrite insert_insert_eq, <- app_assoc.
Qed.

(** The loop stops at the first entry the conversion rejects. *)
Lemma normalize_loop_fail (l : loc) (good ngood : list ImageType) (p : PilImage)
    (rest : list ImageType) :
  normalizes good ngood ->
  pillow_to_cv2 p = None ->
  forall (pre : list ImageType) (w : world),
    heap w !! l = Some (pre ++ good ++ Pil p :: rest) ->
    normalize_loop l (length pre) (length (good ++ Pil p :: rest)) w =
      (Raise Cv2Error, set_heap (<[l := pre ++ ngood ++ Pil p :: rest]> (heap w)) w).
Proof.
  intros Hgood Hp. induction Hgood as [|img n good ngood Hn _ IH]; intros pre w Hl.
  - cbn [app length normalize_loop].
    rewrite (bind_ok _ _ w w (Pil p)); cycle 1.
    { apply list_get_run with (pre ++ Pil p :: rest); [done |].
      by rewrite lookup_app_r, Nat.sub_diag by lia. }
    rewrite Hp. unfold bind, raise. simpl.
    by rewrite insert_id, set_heap_id.
  - cbn [app length normalize_loop].
    rewrite (normalize_step l pre (good ++ Pil p :: rest) img n _ w Hl Hn).
    replace (S (length pre)) with (length (pre ++ [n]))
      by (rewrite length_app; simpl; lia).
    rewrite IH; cycle 1.
    { simpl. rewrite lookup_insert_eq. by rewrite <- app_assoc. }
    simpl. by rewrite insert_insert_eq, <- app_assoc.
Qed.

Lemma normalizes_length (xs nxs : list ImageType) :
  normalizes xs nxs -> length nxs = length xs.
Proof. intros Hn. symmetry. by eapply Forall2_length. Qed.

Lemma normalizes_lookup (xs nxs : list ImageType) (i : nat) (img : ImageType) :
  normalizes xs nxs -> xs !! i = Some img ->
  exists n, nxs !! i = Some n /\ normalize_image img = Some n.
Proof. intros Hn Hx. by destruct (Forall2_lookup_l _ _ _ _ _ Hn Hx) as (n & ? & ?); eauto. Qed.

(** Every list either converts as a whole or has a first PIL entry that
    does not. *)
Lemma normalize_cases (xs : list ImageType) :
  (exists nxs, normalizes xs nxs) \/
  (exists good ngood p rest,
     xs = good ++ Pil p :: rest /\ normalizes good ngood /\ pillow_to_cv2 p = None).
Proof.
  induction xs as [|img xs IH].
  - left. exists []. constructor.
  - destruct (normalize_image img) as [n|] eqn:Hn.
    + destruct IH as [[nxs Hxs] | (good & ngood & p & rest & -> & Hgood & Hp)].
      * left. exists (n :: nxs). by constructor.
      * right. exists (img :: good), (n :: ngood), p, rest.
        split; [done |]. split; [by constructor | done].
    + right. destruct img as [a|p]; [done |]. simpl in Hn.
      exists [], [], p, xs. split; [done |]. split; [constructor |].
      by destruct (pillow_to_cv2 p).
Qed.

Lemma normalize_prefix_all (xs nxs : list ImageType) :
  normalizes xs nxs -> normalize_prefix xs = nxs.
Proof. induction 1 as [|img n xs nxs Hn _ IH]; simpl; [done |]. by rewrite Hn, IH. Qed.

Lemma normalize_prefix_stop (good ngood : list ImageType) (p : PilImage)
    (rest : list ImageType) :
  normalizes good ngood -> pillow_to_cv2 p = None ->
  normalize_prefix (good ++ Pil p :: rest) = ngood ++ Pil p :: rest.
Proof.
  intros Hgood Hp. induction Hgood as [|img n good ngood Hn _ IH]; simpl.
  - by rewrite Hp.
  - by rewrite Hn, IH.
Qed.

Lemma normalize_run (l : loc) (xs nxs : list ImageType) (w : world) :
  heap w !! l = Some xs ->
  normalizes xs nxs ->
  normalize_loop l 0 (length xs) w = (Ok tt, set_heap (<[l := nxs]> (heap w)) w).
Proof. intros Hl Hn. by apply (normalize_loop_ok l xs nxs Hn [] w). Qed.

Lemma normalize_run_fail (l : loc) (good ngood : list ImageType) (p : PilImage)
    (rest : list ImageType) (w : world) :
  heap w !! l = Some (good ++ Pil p :: rest) ->
  normalizes good ngood ->
  pillow_to_cv2 p = None ->
  normalize_loop l 0 (length (good ++ Pil p :: rest)) w =
    (Raise Cv2Error, set_heap (<[l := ngood ++ Pil p :: rest]> (heap w)) w).
Proof. intros Hl Hgood Hp. by apply (normalize_loop_fail l good ngood p rest Hgood Hp [] w). Qed.

End PlotFacts.

(** ** Drawing on the cells *)

Lemma next_fig_num_fresh (fs : list figure) :
  Forall (fun g => (fig_num g < next_fig_num fs)%nat) fs.
Proof.
  unfold next_fig_num. induction fs as [|g fs IH]; [constructor |].
  rewrite fmap_cons. cbn [foldr]. constructor; [lia |].
  eapply Forall_impl; [exact IH |]. cbv beta. intros; lia.
Qed.

Lemma on_cell_older (num i : nat) (f : cell -> cell) (old : list figure) :
  Forall (fun g => (fig_num g < num)%nat) old ->
  on_cell (MkAxes num i) f <$> old = old.
Proof.
  induction 1 as [|g old Hg _ IH]; [done |].
  rewrite fmap_cons, IH. unfold on_cell. cbn [ax_fig].
  destruct (Nat.eqb_spec (fig_num g) num); [lia | done].
Qed.

Lemma update_ax_run (num i : nat) (f : cell -> cell) (size : option (Z * Z))
    (cells : list cell) (old : list figure) (w : world) :
  figs w = Figure num size cells :: old ->
  Forall (fun g => (fig_num g < num)%nat) old ->
  update_ax (MkAxes num i) f w =
    (Ok tt, set_figs (Figure num size (alter f i cells) :: old) w).
Proof.
  intros Hf Hold. unfold update_ax, modify. rewrite Hf, fmap_cons.
  rewrite on_cell_older by done. unfold on_cell. cbn [ax_fig ax_idx fig_num fig_size fig_cells].
  by rewrite Nat.eqb_refl.
Qed.

Lemma alter_twice (f g : cell -> cell) (i : nat) (cells : list cell) :
  alter f i (alter g i cells) = alter (fun c => f (g c)) i cells.
Proof. apply (list_alter_alter_eq f g). Qed.

Lemma set_figs_twice (f1 f2 : list figure) (w : world) :
  set_figs f2 (set_figs f1 w) = set_figs f2 w.
Proof. done. Qed.

Section RenderFacts.
Context `{Imaging}.

(** The loop body on the newest figure rewrites cell [idx] by
    [cell_effect]. *)
Lemma render_cell_ok (l : loc) (xs : list ImageType) (titles : option (list string))
    (cmap : option string) (idx num : nat) (size : option (Z * Z)) (cells : list cell)
    (old : list figure) (w : world) (f : cell -> cell) :
  heap w !! l = Some xs ->
  figs w = Figure num size cells :: old ->
  Forall (fun g => (fig_num g < num)%nat) old ->
  cell_effect xs titles cmap idx = Some f ->
  render_cell l titles cmap idx (MkAxes num idx) w =
    (Ok tt, set_figs (Figure num size (alter f idx cells) :: old) w).
Proof.
  intros Hl Hf Hold. unfold render_cell, render_image, cell_effect, shown_as, bind.
  rewrite (list_len_run l xs w Hl).
  destruct (xs !! idx) as [img|] eqn:Hx.
  - apply lookup_lt_Some in Hx as Hlt.
    destruct (Nat.ltb_spec idx (length xs)); [| lia].
    rewrite (list_get_run l xs idx img w Hl Hx).
    destruct img as [a | p]; [| done].
    destruct (ndim a =? 2)%nat; [| destruct (cvtColor_BGR2RGB a) as [rgb|]; [| done]].
    all: intros [= <-]; ax_step_with update_ax_run.
    all: destruct titles as [ts|];
      [change (title_for (Some ts) idx) with (ts !! idx); destruct (ts !! idx)
      | change (title_for None idx) with (@None string)].
    all: unfold ret, with_title;
      repeat (ax_step_with update_ax_run; rewrite ?set_figs_twice).
    all: by rewrite ?alter_twice.
  - apply lookup_ge_None in Hx.
    destruct (Nat.ltb_spec idx (length xs)); [lia |].
    intros [= <-]. unfold ret. by ax_step_with update_ax_run.
Qed.

(** When [cell_effect] is undefined the body raises. *)
Lemma render_cell_raises (l : loc) (xs : list ImageType) (titles : option (list string))
    (cmap : option string) (idx : nat) (ax : Axes) (w : world) :
  heap w !! l = Some xs ->
  cell_effect xs titles cmap idx = None ->
  exists e, render_cell l titles cmap idx ax w = (Raise e, w).
Proof.
  intros Hl. unfold render_cell, render_image, cell_effect, shown_as, bind.
  rewrite (list_len_run l xs w Hl).
  destruct (xs !! idx) as [img|] eqn:Hx; [| done].
  apply lookup_lt_Some in Hx as Hlt.
  destruct (Nat.ltb_spec idx (length xs)); [| lia].
  rewrite (list_get_run l xs idx img w Hl Hx).
  destruct img as [a | p]; [| by eexists].
  destruct (ndim a =? 2)%nat; [done |].
  destruct (cvtColor_BGR2RGB a); [done |]. by eexists.
Qed.

End RenderFacts.

Section LoopFacts.
Context `{Imaging}.

(** A loop that returns has rewritten exactly the cells it visited,
    each by its [cell_effect]. *)
Lemma render_loop_ok (l : loc) (xs : list ImageType) (titles : option (list string))
    (cmap : option string) (num : nat) (size : option (Z * Z)) (old : list figure)
    (k idx : nat) (cells : list cell) (w w' : world) :
  heap w !! l = Some xs ->
  figs w = Figure num size cells :: old ->
  Forall (fun g => (fig_num g < num)%nat) old ->
  render_loop l titles cmap idx (MkAxes num <$> seq idx k) w = (Ok tt, w') ->
  exists cells',
    w' = set_figs (Figure num size cells' :: old) w /\
    length cells' = length cells /\
    (forall i, (i < idx \/ idx + k <= i)%nat -> cells' !! i = cells !! i) /\
    (forall i, (idx <= i < idx + k)%nat ->
       exists f, cell_effect xs titles cmap i = Some f /\ cells' !! i = f <$> cells !! i).
Proof.
  revert idx cells w. induction k as [|k IH]; intros idx cells w Hl Hf Hold Hrun.
  - injection Hrun as <-. exists cells. rewrite <- Hf, set_figs_id.
    repeat split; try done. intros i Hi. exists hide_axis. lia.
  - rewrite <- cons_seq, fmap_cons in Hrun. cbn [render_loop] in Hrun.
    destruct (cell_effect xs titles cmap idx) as [f|] eqn:Hf0.
    + rewrite (bind_ok _ _ _ _ _ (render_cell_ok _ _ _ _ _ _ _ _ _ _ _ Hl Hf Hold Hf0)) in Hrun.
      apply (IH (S idx) (alter f idx cells)) in Hrun as (cells' & -> & Hlen & Hout & Hin);
        [| done | done | done].
      exists cells'. rewrite set_figs_twice, length_alter in *.
      repeat split; [done | |].
      * intros i Hi. rewrite Hout by lia. apply list_lookup_alter_ne. lia.
      * intros i Hi. destruct (decide (i = idx)) as [-> | Hne].
        -- exists f. split; [done |].
           rewrite Hout by lia. apply list_lookup_alter_eq.
        -- destruct (Hin i) as (f' & Hf' & Hi'); [lia |].
           exists f'. split; [done |].
           rewrite Hi'. by rewrite list_lookup_alter_ne.
    + destruct (render_cell_raises l xs titles cmap idx (MkAxes num idx) w Hl Hf0) as [e He].
      rewrite (bind_raise _ _ _ _ _ He) in Hrun. discriminate.
Qed.

(** *** What the loop cannot touch *)

Lemma keeps_heap_bind {A B} (m : M A) (k : A -> M B) :
  keeps_heap m -> (forall a, keeps_heap (k a)) -> keeps_heap (bind m k).
Proof.
  intros Hm Hk w. unfold bind. specialize (Hm w).
  destruct (m w) as [[a|e] w1]; simpl in *; [| done].
  by rewrite Hk.
Qed.

Lemma keeps_heap_update_ax (ax : Axes) (f : cell -> cell) : keeps_heap (update_ax ax f).
Proof. done. Qed.

Lemma keeps_heap_list_len (l : loc) : keeps_heap (list_len l).
Proof. intros w. unfold list_len, bind, get. simpl. by destruct (heap w !! l). Qed.

Lemma keeps_heap_list_get (l : loc) (i : nat) : keeps_heap (list_get l i).
Proof.
  intros w. unfold list_get, bind, get. simpl.
  destruct (heap w !! l) as [xs|]; [| done]. by destruct (xs !! i).
Qed.

Lemma keeps_heap_render_cell l titles cmap idx ax :
  keeps_heap (render_cell l titles cmap idx ax).
Proof.
  unfold render_cell, render_image.
  apply keeps_heap_bind; [apply keeps_heap_list_len |]. intros n.
  apply keeps_heap_bind; [| intros; apply keeps_heap_update_ax].
  destruct (idx <? n)%nat; [| done].
  apply keeps_heap_bind; [apply keeps_heap_list_get |]. intros img.
  apply keeps_heap_bind.
  - destruct img as [a|p]; [| done].
    destruct (ndim a =? 2)%nat; [apply keeps_heap_update_ax |].
    destruct (cvtColor_BGR2RGB a); [apply keeps_heap_update_ax | done].
  - intros _. destruct titles as [ts|]; [| done].
    destruct (ts !! idx); [apply keeps_heap_update_ax | done].
Qed.

Lemma keeps_heap_render_loop l titles cmap axs idx :
  keeps_heap (render_loop l titles cmap idx axs).
Proof.
  revert idx. induction axs as [|ax axs IH]; intros idx; [done |].
  apply keeps_heap_bind; [apply keeps_heap_render_cell | intros; apply IH].
Qed.

(** *** Titles do not decide the outcome *)

Lemma same_outcome_bind {A B} (m1 m2 : M A) (k1 k2 : A -> M B) :
  same_outcome m1 m2 -> (forall a, same_outcome (k1 a) (k2 a)) ->
  same_outcome (bind m1 k1) (bind m2 k2).
Proof.
  intros Hm Hk w1 w2 Hw. unfold bind. destruct (Hm w1 w2 Hw) as [Hr Hh].
  destruct (m1 w1) as [r1 w1'], (m2 w2) as [r2 w2']. simpl in *. subst r2.
  destruct r1 as [a|e]; [by apply Hk | done].
Qed.

Lemma same_outcome_quiet (m1 m2 : M unit) :
  never_raises m1 -> keeps inputs m1 -> never_raises m2 -> keeps inputs m2 ->
  same_outcome m1 m2.
Proof.
  intros Hr1 Hh1 Hr2 Hh2 w1 w2 Hw. rewrite Hr1, Hr2, Hh1, Hh2. done.
Qed.

Lemma same_outcome_refl_quiet (m : M unit) :
  never_raises m -> keeps inputs m -> same_outcome m m.
Proof. intros. by apply same_outcome_quiet. Qed.

Lemma same_outcome_list_len (l : loc) : same_outcome (list_len l) (list_len l).
Proof.
  intros w1 w2 Hw. unfold list_len, bind, get. simpl.
  assert (Hh : heap w1 = heap w2) by (unfold inputs in Hw; congruence).
  rewrite Hh. by destruct (heap w2 !! l).
Qed.

Lemma same_outcome_list_get (l : loc) (i : nat) : same_outcome (list_get l i) (list_get l i).
Proof.
  intros w1 w2 Hw. unfold list_get, bind, get. simpl.
  assert (Hh : heap w1 = heap w2) by (unfold inputs in Hw; congruence).
  rewrite Hh. destruct (heap w2 !! l) as [xs|]; [| done]. by destruct (xs !! i).
Qed.

Lemma same_outcome_raise {A} (e : exn) : same_outcome (@raise A e) (raise e).
Proof. by intros w1 w2 Hw. Qed.

Lemma title_step_quiet (titles : option (list string)) (idx : nat) (ax : Axes) :
  let m := match titles with
           | Some ts => match ts !! idx with
                        | Some t => ax_set_title ax t
                        | None => ret tt
                        end
           | None => ret tt
           end in
  never_raises m /\ keeps inputs m.
Proof.
  destruct titles as [ts|]; simpl; [| done]. by destruct (ts !! idx).
Qed.

Lemma same_outcome_render_cell l t1 t2 cmap idx ax :
  same_outcome (render_cell l t1 cmap idx ax) (render_cell l t2 cmap idx ax).
Proof.
  unfold render_cell, render_image.
  apply same_outcome_bind; [apply same_outcome_list_len |]. intros n.
  apply same_outcome_bind; [| intros; by apply same_outcome_refl_quiet].
  destruct (idx <? n)%nat; [| by apply same_outcome_refl_quiet].
  apply same_outcome_bind; [apply same_outcome_list_get |]. intros img.
  apply same_outcome_bind.
  - destruct img as [a|p]; [| apply same_outcome_raise].
    destruct (ndim a =? 2)%nat; [by apply same_outcome_refl_quiet |].
    destruct (cvtColor_BGR2RGB a);
      [by apply same_outcome_refl_quiet | apply same_outcome_raise].
  - intros _.
    destruct (title_step_quiet t1 idx ax), (title_step_quiet t2 idx ax).
    by apply same_outcome_quiet.
Qed.

Lemma same_outcome_render_loop l t1 t2 cmap axs idx :
  same_outcome (render_loop l t1 cmap idx axs) (render_loop l t2 cmap idx axs).
Proof.
  revert idx. induction axs as [|ax axs IH]; intros idx.
  - by apply same_outcome_refl_quiet.
  - apply same_outcome_bind; [apply same_outcome_render_cell | intros; apply IH].
Qed.

End LoopFacts.

Lemma plt_subplots_run (rows cols : Z) (size : Z * Z) (w : world) :
  plt_subplots rows cols size w =
    let num := next_fig_num (figs w) in
    let w0 := set_log (log w ++ [EvSubplots rows cols]) w in
    if (fst size <? 0) || (snd size <? 0)
    then (Raise (ValueError (figsize_error size)), w0)
    else if (rows <=? 0) || (cols <=? 0)
    then (Raise (ValueError (layout_error rows cols)),
          set_figs (Figure num (Some size) [] :: figs w) w0)
    else
      let n := Z.to_nat (rows * cols) in
      (Ok (if (rows =? 1) && (cols =? 1)
           then SingleAxes (MkAxes num 0)
           else AxesArray (squeezed_shape rows cols) (MkAxes num <$> seq 0 n)),
       set_figs (Figure num (Some size) (replicate n blank_cell) :: figs w) w0).
Proof.
  unfold plt_subplots, bind, emit, modify, get, ret, raise. cbv beta iota zeta.
  change (figs (set_log (log w ++ [EvSubplots rows cols]) w)) with (figs w).
  destruct ((fst size <? 0) || (snd size <? 0)); [done |].
  destruct ((rows <=? 0) || (cols <=? 0)); [done |].
  by destruct ((rows =? 1) && (cols =? 1)).
Qed.

Lemma plt_savefig_run `{Backend} (path : string) (g : figure) (old : list figure)
    (w : world) :
  figs w = g :: old ->
  plt_savefig path w =
    let w0 := set_dirs (snd (savefig_io path (dirs w)))
                (set_log (log w ++ [EvSavefig path]) w) in
    match fst (savefig_io path (dirs w)) with
    | Some e => (Raise e, w0)
    | None => (Ok tt, set_saved (saved w ++ [(path, g)]) w0)
    end.
Proof.
  intros Hf. unfold plt_savefig, plt_gcf, bind, emit, modify, get, ret, raise.
  cbv beta iota zeta. change (figs (set_log (log w ++ [EvSavefig path]) w)) with (figs w).
  rewrite Hf. cbv beta iota. cbn [dirs set_log].
  by destruct (fst (savefig_io path (dirs w))).
Qed.

Section CallFacts.
Context `{Imaging} `{Backend}.

(** Up to the capacity check, when every entry converts: the list is
    normalised and nothing else has happened. *)
Lemma plot_prefix_run (l : loc) (xs nxs : list ImageType) (w : world) (k : nat -> M unit) :
  heap w !! l = Some xs ->
  normalizes xs nxs ->
  (n <- list_len l ;; normalize_loop l 0 n ;; n <- list_len l ;; k n) w =
    k (length xs) (set_heap (<[l := nxs]> (heap w)) w).
Proof.
  intros Hl Hn.
  rewrite (bind_ok _ _ w w (length xs)) by by apply list_len_run.
  rewrite (bind_ok _ _ _ _ tt (normalize_run l xs nxs w Hl Hn)).
  erewrite bind_ok; cycle 1.
  { apply list_len_run. simpl. apply lookup_insert_eq. }
  by rewrite (normalizes_length xs nxs Hn).
Qed.

(** When an entry does not convert, line 52 raises and nothing follows. *)
Lemma plot_prefix_fail (l : loc) (good ngood : list ImageType) (p : PilImage)
    (rest : list ImageType) (w : world) (k : nat -> M unit) :
  heap w !! l = Some (good ++ Pil p :: rest) ->
  normalizes good ngood ->
  pillow_to_cv2 p = None ->
  (n <- list_len l ;; normalize_loop l 0 n ;; n <- list_len l ;; k n) w =
    (Raise Cv2Error, set_heap (<[l := ngood ++ Pil p :: rest]> (heap w)) w).
Proof.
  intros Hl Hgood Hp.
  rewrite (bind_ok _ _ w w (length (good ++ Pil p :: rest))) by by apply list_len_run.
  by rewrite (bind_raise _ _ _ _ _ (normalize_run_fail l good ngood p rest w Hl Hgood Hp)).
Qed.

(** A call that returns: the figure it drew and the world it leaves. *)
Lemma plot_images_grid_returns (l : loc) (rows cols : Z) (titles : option (list string))
    (size : Z * Z) (cmap save_path : option string) (w w' : world) :
  plot_images_grid l (rows, cols) titles size cmap save_path w = (Ok tt, w') ->
  exists xs nxs cells,
    heap w !! l = Some xs /\
    normalizes xs nxs /\
    Z.of_nat (length xs) <= rows * cols /\
    length cells = Z.to_nat (rows * cols) /\
    (forall i, (i < Z.to_nat (rows * cols))%nat ->
       exists f, cell_effect nxs titles cmap i = Some f /\
                 cells !! i = Some (f blank_cell)) /\
    delivered w w' save_path (Figure (next_fig_num (figs w)) (Some size) cells) /\
    heap w' = <[l := nxs]> (heap w) /\
    figs w' = figs w /\
    log w' = log w ++ [EvSubplots rows cols;
                       if truthy save_path
                       then EvSavefig (default EmptyString save_path) else EvShow;
                       EvClose].
Proof.
  unfold plot_images_grid. intros Hrun.
  destruct (heap w !! l) as [xs|] eqn:Hl; cycle 1.
  { unfold bind at 1 in Hrun. unfold list_len, bind, get in Hrun. simpl in Hrun.
    rewrite Hl in Hrun. discriminate. }
  destruct (normalize_cases xs) as [[nxs Hn] | (good & ngood & p & rest & -> & Hgood & Hp)];
    cycle 1.
  { rewrite (plot_prefix_fail l good ngood p rest w _ Hl Hgood Hp) in Hrun. discriminate. }
  rewrite (plot_prefix_run l xs nxs w _ Hl Hn) in Hrun.
  set (w1 := set_heap (<[l := nxs]> (heap w)) w) in *.
  rewrite Z.gtb_ltb in Hrun.
  destruct (Z.ltb_spec (rows * cols) (Z.of_nat (length xs))) as [Hgt | Hle]; [discriminate |].
  set (num := next_fig_num (figs w)) in *.
  set (n := Z.to_nat (rows * cols)) in *.
  unfold bind at 1 in Hrun. rewrite plt_subplots_run in Hrun. cbv zeta in Hrun.
  destruct ((fst size <? 0) || (snd size <? 0)); [discriminate |].
  destruct ((rows <=? 0) || (cols <=? 0)) eqn:Hpos; [discriminate |].
  destruct ((rows =? 1) && (cols =? 1)) eqn:Hone; [discriminate |].
  unfold axes_flat, ret in Hrun. unfold bind at 1 in Hrun.
  unfold bind at 1 in Hrun. fold num n in Hrun.
  change (figs w1) with (figs w) in Hrun. fold num in Hrun.
  match type of Hrun with
  | context [render_loop _ _ _ _ _ ?x] => set (w3 := x) in *
  end.
  destruct (render_loop l titles cmap 0 (MkAxes num <$> seq 0 n) w3)
    as [[[]|e] w4] eqn:Hloop; [| discriminate].
  apply (render_loop_ok l nxs titles cmap num (Some size) (figs w) n 0
           (replicate n blank_cell)) in Hloop as (cells & -> & Hlen & _ & Hcells).
  2: { simpl. apply lookup_insert_eq. }
  2: { reflexivity. }
  2: { apply next_fig_num_fresh. }
  rewrite length_replicate in Hlen.
  exists xs, nxs, cells. split; [done |]. split; [done |]. split; [done |].
  split; [done |]. split.
  { intros i Hi. destruct (Hcells i) as (f & Hf & Hi'); [lia |].
    exists f. split; [done |]. rewrite Hi'. by rewrite lookup_replicate_2. }
  unfold delivered.
  destruct (truthy save_path).
  - unfold bind at 1 in Hrun.
    erewrite plt_savefig_run in Hrun by reflexivity. cbv zeta in Hrun.
    destruct (fst (savefig_io _ _)); [discriminate |].
    injection Hrun as <-. simpl. by rewrite <- !app_assoc.
  - injection Hrun as <-. simpl. by rewrite <- !app_assoc.
Qed.

End CallFacts.

(** ** After the loop *)

Lemma keeps_heap_plt_subplots (rows cols : Z) (size : Z * Z) :
  keeps_heap (plt_subplots rows cols size).
Proof.
  intros w. rewrite plt_subplots_run. cbv zeta.
  destruct ((fst size <? 0) || (snd size <? 0)); [done |].
  by destruct ((rows <=? 0) || (cols <=? 0)).
Qed.

Lemma keeps_heap_axes_flat (axes : axes_value) : keeps_heap (axes_flat axes).
Proof. by destruct axes. Qed.

Lemma keeps_heap_plt_savefig `{Backend} (p : string) : keeps_heap (plt_savefig p).
Proof.
  intros w. unfold plt_savefig, plt_gcf, bind, emit, modify, get. simpl.
  destruct (figs w); simpl; by destruct (fst (savefig_io _ _)).
Qed.

Lemma never_raises_bind (m : M unit) (k : unit -> M unit) :
  never_raises m -> (forall a, never_raises (k a)) -> never_raises (bind m k).
Proof.
  intros Hm Hk w. unfold bind. specialize (Hm w).
  destruct (m w) as [r w1]. simpl in Hm. subst r. apply Hk.
Qed.

(** Lines 73-77 leave the lists alone. *)
Lemma finish_keeps_heap `{Backend} (save_path : option string) :
  keeps_heap ((if truthy save_path
               then plt_savefig (default EmptyString save_path)
               else plt_show) ;; plt_close)%py.
Proof.
  apply keeps_heap_bind; [| done].
  destruct (truthy save_path); [apply keeps_heap_plt_savefig | done].
Qed.

(** Showing and closing raise nothing. *)
Lemma finish_shown_quiet : never_raises (plt_show ;; plt_close)%py.
Proof. by apply never_raises_bind. Qed.

(** Once [plt.savefig] or [plt.show] has returned, nothing raises. *)
Lemma plt_close_quiet : never_raises plt_close.
Proof. done. Qed.

Lemma fst_bind_ext {A B} (m : M A) (k1 k2 : A -> M B) :
  (forall a w, fst (k1 a w) = fst (k2 a w)) ->
  forall w, fst (bind m k1 w) = fst (bind m k2 w).
Proof. intros Hk w. unfold bind. destruct (m w) as [[a|e] w1]; [apply Hk | done]. Qed.

Lemma plt_savefig_outcome `{Backend} (p : string) (w : world) :
  fst (plt_savefig p w) =
    match fst (savefig_io p (dirs w)) with
    | Some e => Raise e
    | None => Ok tt
    end /\
  inputs (snd (plt_savefig p w)) = (heap w, snd (savefig_io p (dirs w))).
Proof.
  unfold plt_savefig, plt_gcf, bind, emit, modify, get. simpl.
  destruct (figs w); simpl; by destruct (fst (savefig_io _ _)).
Qed.

Lemma same_outcome_finish `{Backend} (save_path : option string) :
  let m := ((if truthy save_path
             then plt_savefig (default EmptyString save_path)
             else plt_show) ;; plt_close)%py in
  same_outcome m m.
Proof.
  apply same_outcome_bind; [| intros; by apply same_outcome_refl_quiet].
  destruct (truthy save_path); [| by apply same_outcome_refl_quiet].
  intros w1 w2 Hw.
  assert (Hd : dirs w1 = dirs w2) by (unfold inputs in Hw; congruence).
  assert (Hh : heap w1 = heap w2) by (unfold inputs in Hw; congruence).
  destruct (plt_savefig_outcome (default EmptyString save_path) w1) as [-> ->].
  destruct (plt_savefig_outcome (default EmptyString save_path) w2) as [-> ->].
  by rewrite Hd, Hh.
Qed.

(** ** What a cell ends up as *)

Section CellFacts.
Context `{Imaging}.

Lemma cell_effect_axis_off xs titles cmap i f c :
  cell_effect xs titles cmap i = Some f -> c_axis_on (f c) = false.
Proof.
  unfold cell_effect. destruct (xs !! i) as [[a|p]|]; [| done |].
  - destruct (shown_as a cmap); intros [= <-]. done.
  - by intros [= <-].
Qed.

Lemma c_title_with_title t c : c_title c = None -> c_title (with_title t c) = t.
Proof. by destruct t. Qed.

Lemma cell_effect_title xs titles cmap i f img :
  cell_effect xs titles cmap i = Some f ->
  xs !! i = Some img ->
  c_title (f blank_cell) = title_for titles i.
Proof.
  unfold cell_effect. intros Hf Hx. rewrite Hx in Hf.
  destruct img as [a|p]; [| done].
  destruct (shown_as a cmap) as [im|]; [| done]. injection Hf as <-.
  simpl. by apply c_title_with_title.
Qed.

Lemma c_images_with_title t c : c_images (with_title t c) = c_images c.
Proof. by destruct t. Qed.

Lemma cell_effect_images xs titles cmap i f a :
  cell_effect xs titles cmap i = Some f ->
  xs !! i = Some (Nd a) ->
  exists im, shown_as a cmap = Some im /\ c_images (f blank_cell) = [im].
Proof.
  unfold cell_effect. intros Hf Hx. rewrite Hx in Hf.
  destruct (shown_as a cmap) as [im|]; [| done]. injection Hf as <-.
  exists im. split; [done |]. simpl. by rewrite c_images_with_title.
Qed.

Lemma normalize_image_nd img n : normalize_image img = Some n -> is_array n.
Proof.
  destruct img as [a|p]; simpl.
  - intros [= <-]. by exists a.
  - destruct (pillow_to_cv2 p) as [a|]; [| done]. intros [= <-]. by exists a.
Qed.

Lemma normalized_are_arrays (xs nxs : list ImageType) :
  normalizes xs nxs -> Forall is_array nxs.
Proof.
  induction 1 as [|img n xs nxs Hn _ IH]; constructor; [| done].
  by apply normalize_image_nd with img.
Qed.

Lemma normalizes_arrays (xs : list ImageType) :
  Forall is_array xs -> normalizes xs xs.
Proof. induction 1 as [|img xs [a ->] _ IH]; by constructor. Qed.

(** *** The calls that do return *)

Lemma render_loop_returns (l : loc) (xs : list ImageType) (titles : option (list string))
    (cmap : option string) (num : nat) (size : option (Z * Z)) (old : list figure)
    (k idx : nat) (cells : list cell) (w : world) :
  heap w !! l = Some xs ->
  figs w = Figure num size cells :: old ->
  Forall (fun g => (fig_num g < num)%nat) old ->
  (forall i, (idx <= i < idx + k)%nat -> is_Some (cell_effect xs titles cmap i)) ->
  exists w', render_loop l titles cmap idx (MkAxes num <$> seq idx k) w = (Ok tt, w').
Proof.
  revert idx cells w. induction k as [|k IH]; intros idx cells w Hl Hf Hold Hall.
  - by exists w.
  - rewrite <- cons_seq, fmap_cons. cbn [render_loop].
    destruct (Hall idx) as [f Hf0]; [lia |].
    rewrite (bind_ok _ _ _ _ _ (render_cell_ok _ _ _ _ _ _ _ _ _ _ _ Hl Hf Hold Hf0)).
    apply (IH (S idx) (alter f idx cells)); [done | done | done |].
    intros i Hi. apply Hall. lia.
Qed.

End CellFacts.

Section Returning.
Context `{Imaging} `{Backend}.

(** Within capacity, on a grid of at least two cells, with a [figsize]
    that is not negative, entries and arrays the converters accept and a
    path the backend can write, the call returns. *)
Lemma plot_images_grid_total (l : loc) (xs nxs : list ImageType) (rows cols : Z)
    (titles : option (list string)) (size : Z * Z) (cmap save_path : option string)
    (w : world) :
  heap w !! l = Some xs ->
  normalizes xs nxs ->
  Z.of_nat (length xs) <= rows * cols ->
  0 < rows -> 0 < cols -> 1 < rows * cols ->
  0 <= fst size -> 0 <= snd size ->
  Forall (fun n => forall a, n = Nd a -> is_Some (shown_as a cmap)) nxs ->
  (truthy save_path = true ->
   fst (savefig_io (default EmptyString save_path) (dirs w)) = None) ->
  exists w', plot_images_grid l (rows, cols) titles size cmap save_path w = (Ok tt, w').
Proof.
  intros Hl Hn Hle Hr Hc Hmany Hw Hh Hconv Hsave. unfold plot_images_grid.
  rewrite (plot_prefix_run l xs nxs w _ Hl Hn).
  rewrite Z.gtb_ltb. destruct (Z.ltb_spec (rows * cols) (Z.of_nat (length xs))); [lia |].
  unfold bind at 1. rewrite plt_subplots_run. cbv zeta.
  destruct (Z.ltb_spec (fst size) 0); [lia |]. destruct (Z.ltb_spec (snd size) 0); [lia |].
  destruct (Z.leb_spec rows 0); [lia |]. destruct (Z.leb_spec cols 0); [lia |].
  cbn [orb].
  replace ((rows =? 1) && (cols =? 1)) with false; cycle 1.
  { symmetry. apply andb_false_iff. rewrite !Z.eqb_neq. nia. }
  unfold axes_flat, ret. unfold bind at 1. unfold bind at 1.
  match goal with
  | |- context [render_loop _ _ _ _ _ ?x] => set (w3 := x)
  end.
  destruct (render_loop_returns l nxs titles cmap
              (next_fig_num (figs w)) (Some size) (figs w) (Z.to_nat (rows * cols)) 0
              (replicate (Z.to_nat (rows * cols)) blank_cell) w3) as [w4 Hloop].
  - simpl. apply lookup_insert_eq.
  - reflexivity.
  - apply next_fig_num_fresh.
  - intros i _. unfold cell_effect.
    destruct (nxs !! i) as [n|] eqn:Hx; [| done].
    rewrite Forall_lookup in Hconv.
    destruct (Forall_lookup_1 _ _ _ _ (normalized_are_arrays xs nxs Hn) Hx) as [a ->].
    destruct (Hconv i (Nd a) Hx a eq_refl) as [im ->]. done.
  - change (figs (set_log _ _)) with (figs w). simpl in Hloop. simpl. rewrite Hloop.
    pose proof (drawing_render_loop dirs dirs_ignores l titles cmap
                  (MkAxes (next_fig_num (figs w)) <$> seq 0 (Z.to_nat (rows * cols)))
                  0 w3) as Hd.
    simpl in Hd. rewrite Hloop in Hd. simpl in Hd.
    destruct (truthy save_path) eqn:Ht.
    + unfold bind at 1.
      destruct (plt_savefig_outcome (default EmptyString save_path) w4) as [Hout _].
      rewrite Hd in Hout. change (dirs w3) with (dirs w) in Hout.
      rewrite (Hsave eq_refl) in Hout.
      destruct (plt_savefig (default EmptyString save_path) w4) as [r w5].
      simpl in Hout. subst r. by eexists.
    + by eexists.
Qed.

End Returning.



(** ** The capacity check *)

Section Capacity.
Context `{Imaging} `{Backend}.

Lemma normalizes_accepted (xs nxs : list ImageType) (i : nat) (p : PilImage) :
  normalizes xs nxs -> xs !! i = Some (Pil p) -> is_Some (pillow_to_cv2 p).
Proof.
  intros Hn Hx. destruct (normalizes_lookup _ _ _ _ Hn Hx) as (n & _ & Hp).
  simpl in Hp. destruct (pillow_to_cv2 p); [by eexists | done].
Qed.

Lemma accepted_normalizes (xs : list ImageType) :
  (forall i p, xs !! i = Some (Pil p) -> is_Some (pillow_to_cv2 p)) ->
  exists nxs, normalizes xs nxs.
Proof.
  intros Hall.
  destruct (normalize_cases xs) as [Hn | (good & ngood & p & rest & -> & Hg & Hp)];
    [done |].
  destruct (Hall (length good) p) as [a Ha]; [| congruence].
  by rewrite lookup_app_r, Nat.sub_diag.
Qed.

(** The call up to the capacity check, when there are more images than
    cells: the conversion of line 52 raises, or the check of line 54
    does. *)
Lemma plot_images_grid_excess (l : loc) (xs : list ImageType) (rows cols : Z)
    (titles : option (list string)) (size : Z * Z) (cmap save_path : option string)
    (w : world) :
  heap w !! l = Some xs ->
  rows * cols < Z.of_nat (length xs) ->
  let w' := set_heap (<[l := normalize_prefix xs]> (heap w)) w in
  ((forall i p, xs !! i = Some (Pil p) -> is_Some (pillow_to_cv2 p)) /\
   plot_images_grid l (rows, cols) titles size cmap save_path w =
     (Raise (ValueError grid_error), w')) \/
  ((exists i p, xs !! i = Some (Pil p) /\ pillow_to_cv2 p = None) /\
   plot_images_grid l (rows, cols) titles size cmap save_path w =
     (Raise Cv2Error, w')).
Proof.
  intros Hl Hgt w'. unfold plot_images_grid.
  destruct (normalize_cases xs) as [[nxs Hn] | (good & ngood & p & rest & -> & Hg & Hp)].
  - left. split; [intros i p; by apply normalizes_accepted with nxs |].
    rewrite (plot_prefix_run l xs nxs w _ Hl Hn).
    rewrite Z.gtb_ltb. destruct (Z.ltb_spec (rows * cols) (Z.of_nat (length xs))); [| lia].
    unfold w'. by rewrite (normalize_prefix_all _ _ Hn).
  - right. split.
    + exists (length good), p. split; [| done]. by rewrite lookup_app_r, Nat.sub_diag.
    + rewrite (plot_prefix_fail l good ngood p rest w _ Hl Hg Hp).
      unfold w'. by rewrite (normalize_prefix_stop _ _ _ _ Hg Hp).
Qed.

End Capacity.

(** C1, as the code has it: with more images than cells the call
    raises before any pyplot call is made, so no figure is allocated and
    nothing is saved or shown. When [pillow_to_cv2] accepts every PIL
    entry of the list (so for every list of arrays) the exception is the
    [ValueError] of line 55, whose message says that the number of
    images exceeds the grid size; when it rejects one, the exception is
    the [cv2.error] of line 52 and the capacity check is not reached. *)
Theorem plot_images_grid_rejects_excess `{Imaging} `{Backend} (l : loc)
    (xs : list ImageType) (rows cols : Z) (titles : option (list string))
    (size : Z * Z) (cmap save_path : option string) (w : world) :
  heap w !! l = Some xs ->
  rows * cols < Z.of_nat (length xs) ->
  exists e w',
    plot_images_grid l (rows, cols) titles size cmap save_path w = (Raise e, w') /\
    ((forall i p, xs !! i = Some (Pil p) -> is_Some (pillow_to_cv2 p)) ->
       e = ValueError "The number of images exceeds the grid size. Please increase the grid size or reduce the number of images.") /\
    ((exists i p, xs !! i = Some (Pil p) /\ pillow_to_cv2 p = None) ->
       e = Cv2Error) /\
    log w' = log w /\ figs w' = figs w /\
    saved w' = saved w /\ displayed w' = displayed w.
Proof.
  intros Hl Hgt.
  destruct (plot_images_grid_excess l xs rows cols titles size cmap save_path w Hl Hgt)
    as [[Hall ->] | [(i & p & Hx & Hp) ->]]; eexists _, _; (split; [reflexivity |]).
  - split; [done |]. split; [| done].
    intros (j & q & Hj & Hq). destruct (Hall j q Hj). congruence.
  - split; [| done]. intros Hall. destruct (Hall i p Hx). congruence.
Qed.

(** The scenario of the specification: three images on a 1x2 grid. *)
Lemma plot_images_grid_rejects_excess_witness :
  let xs := [Nd bgr_pixel; Nd bgr_pixel; Nd (checkerboard 2)] in
  let w := world_with xs in
  heap w !! 0%nat = Some xs /\
  1 * 2 < Z.of_nat (length xs) /\
  exists e w',
    @plot_images_grid reference_imaging sample_backend 0%nat (1, 2) None (12, 12)
      (Some "gray") (Some "/tmp/out.png") w = (Raise e, w') /\
    e = ValueError "The number of images exceeds the grid size. Please increase the grid size or reduce the number of images." /\
    log w' = log w /\ figs w' = figs w /\
    saved w' = saved w /\ displayed w' = displayed w.
Proof.
  split; [reflexivity |]. split; [simpl; lia |].
  destruct (@plot_images_grid_rejects_excess reference_imaging sample_backend 0%nat
              [Nd bgr_pixel; Nd bgr_pixel; Nd (checkerboard 2)] 1 2 None (12, 12)
              (Some "gray") (Some "/tmp/out.png")
              (world_with [Nd bgr_pixel; Nd bgr_pixel; Nd (checkerboard 2)]))
    as (e & w' & Hrun & Harrays & _ & Hrest); [reflexivity | simpl; lia |].
  exists e, w'. split; [exact Hrun |]. split; [| exact Hrest].
  apply Harrays. intros [|[|[|i]]] p; discriminate.
Defined.

(** Against C1 as stated: three images on a 1x2 grid, the first a PIL
    image with two channels. The conversion of line 52 raises
    [cv2.error] and the capacity check is never reached. *)
Lemma plot_images_grid_excess_conversion_error :
  let xs := [Pil gray_alpha_photo; Nd bgr_pixel; Nd bgr_pixel] in
  let run := @plot_images_grid reference_imaging sample_backend 0%nat (1, 2) None
               (12, 12) (Some "gray") (Some "/tmp/out.png") (world_with xs) in
  1 * 2 < Z.of_nat (length xs) /\
  fst run = Raise Cv2Error /\
  (forall msg, fst run <> Raise (ValueError msg)).
Proof. vm_compute. repeat split; congruence. Qed.

(** ** The 1x1 grid *)

(** C2, at the scenario of the specification: for one grayscale 64x64
    image on a 1x1 grid with a save path, [plt.subplots] returns a lone
    [Axes], [axes.flat] raises [AttributeError], and [plt.savefig] is
    not reached. *)
Theorem plot_images_grid_single_cell_raises :
  let run := @plot_images_grid reference_imaging sample_backend 0%nat (1, 1) None
               (12, 12) (Some "gray") (Some "/tmp/out.png")
               (world_with [Nd (checkerboard 64)]) in
  Z.of_nat (length [Nd (checkerboard 64)]) <= 1 * 1 /\
  fst run = Raise (AttributeError "'Axes' object has no attribute 'flat'") /\
  saved (snd run) = [] /\
  log (snd run) = [EvSubplots 1 1].
Proof. vm_compute. repeat split; congruence. Qed.

(** The same on every 1x1 grid, when the list fits it and converts. *)
Lemma single_cell_grid_always_raises `{Imaging} `{Backend} (l : loc)
    (xs nxs : list ImageType) (titles : option (list string)) (size : Z * Z)
    (cmap save_path : option string) (w : world) :
  heap w !! l = Some xs ->
  normalizes xs nxs ->
  (length xs <= 1)%nat ->
  0 <= fst size -> 0 <= snd size ->
  plot_images_grid l (1, 1) titles size cmap save_path w =
    (Raise (AttributeError "'Axes' object has no attribute 'flat'"),
     set_figs (Figure (next_fig_num (figs w)) (Some size) [blank_cell] :: figs w)
       (set_log (log w ++ [EvSubplots 1 1])
          (set_heap (<[l := nxs]> (heap w)) w))).
Proof.
  intros Hl Hn Hlen Hw Hh. unfold plot_images_grid.
  rewrite (plot_prefix_run l xs nxs w _ Hl Hn).
  rewrite Z.gtb_ltb. destruct (Z.ltb_spec (1 * 1) (Z.of_nat (length xs))); [lia |].
  unfold bind at 1. rewrite plt_subplots_run. cbv zeta.
  destruct (Z.ltb_spec (fst size) 0); [lia |].
  destruct (Z.ltb_spec (snd size) 0); [lia |]. reflexivity.
Qed.

(** ** Output and release *)

Lemma delivered_saved (w w' : world) (p : string) (g : figure) :
  p <> EmptyString ->
  delivered w w' (Some p) g <->
  saved w' = saved w ++ [(p, g)] /\ displayed w' = displayed w.
Proof.
  intros Hp. unfold delivered, truthy.
  destruct (String.eqb_spec p EmptyString); [done |]. reflexivity.
Qed.

Lemma delivered_shown (w w' : world) (g : figure) :
  delivered w w' None g <->
  displayed w' = displayed w ++ g :: figs w /\ saved w' = saved w.
Proof. reflexivity. Qed.

(** C4, as the code has it: a call that returns has passed the figure
    to [plt.savefig] with a non-empty [save_path], which returned,
    without displaying it, or displayed it without saving when no path
    (or the empty one) was given, and has then closed it: the open
    figures are those open before the call. *)
Theorem plot_images_grid_delivers_then_closes `{Imaging} `{Backend} (l : loc)
    (rows cols : Z) (titles : option (list string)) (size : Z * Z)
    (cmap save_path : option string) (w w' : world) :
  plot_images_grid l (rows, cols) titles size cmap save_path w = (Ok tt, w') ->
  (exists g, fig_num g = next_fig_num (figs w) /\ delivered w w' save_path g) /\
  figs w' = figs w /\
  log w' = log w ++ [EvSubplots rows cols;
                     if truthy save_path
                     then EvSavefig (default EmptyString save_path) else EvShow;
                     EvClose].
Proof.
  intros Hrun.
  apply plot_images_grid_returns in Hrun
    as (xs & nxs & cells & _ & _ & _ & _ & _ & Hdel & _ & Hfigs & Hlog).
  split; [| done]. eexists. split; [| exact Hdel]. reflexivity.
Qed.

Lemma plot_images_grid_delivers_then_closes_witness :
  let w := world_with [Nd (checkerboard 2); Pil rgb_photo] in
  let run := @plot_images_grid reference_imaging sample_backend 0%nat (1, 2) None
               (12, 12) (Some "gray") (Some "/tmp/out.png") w in
  run = (Ok tt, snd run) /\
  (exists g, fig_num g = next_fig_num (figs w) /\
             delivered w (snd run) (Some "/tmp/out.png") g) /\
  figs (snd run) = figs w /\
  log (snd run) = log w ++ [EvSubplots 1 2; EvSavefig "/tmp/out.png"; EvClose].
Proof.
  split; [vm_compute; reflexivity |].
  apply (@plot_images_grid_delivers_then_closes reference_imaging sample_backend
           0%nat 1 2 None (12, 12) (Some "gray") (Some "/tmp/out.png")).
  vm_compute. reflexivity.
Defined.

(** Against C4 as stated, twice. The call on a 1x1 grid fails after the
    figure was allocated, and the figure stays open. The call with the
    empty string as [save_path] returns having displayed the figure and
    saved nothing. *)
Lemma plot_images_grid_leaks_and_ignores_empty_path :
  (let w := world_with [Nd (checkerboard 2)] in
   let run := @plot_images_grid reference_imaging sample_backend 0%nat (1, 1) None
                (12, 12) (Some "gray") None w in
   fst run = Raise (AttributeError "'Axes' object has no attribute 'flat'") /\
   figs w = [] /\
   figs (snd run) = [Figure 1 (Some (12, 12)) [blank_cell]] /\
   ~ In EvClose (log (snd run))) /\
  (let w := world_with [Nd (checkerboard 2); Nd (checkerboard 2)] in
   let run := @plot_images_grid reference_imaging sample_backend 0%nat (1, 2) None
                (12, 12) (Some "gray") (Some EmptyString) w in
   fst run = Ok tt /\
   saved (snd run) = [] /\
   length (displayed (snd run)) = 1%nat /\
   log (snd run) = [EvSubplots 1 2; EvShow; EvClose]).
Proof.
  vm_compute. repeat split; try congruence. intros [Hc | []]. discriminate.
Qed.

(** Any exception after line 60 leaves the figure open; here
    [cv2.cvtColor] rejects a two-channel array on a 1x2 grid. *)
Example plot_images_grid_conversion_failure_keeps_figure_open :
  let w := world_with [Nd two_channel] in
  let run := @plot_images_grid reference_imaging sample_backend 0%nat (1, 2) None
               (12, 12) (Some "gray") None w in
  fst run = Raise Cv2Error /\
  figs w = [] /\
  figs (snd run) = [Figure 1 (Some (12, 12)) [blank_cell; blank_cell]].
Proof. vm_compute. repeat split. Qed.

(** ** What is drawn *)

(** C5: in the figure a returning call produced, the cell of every
    image holds exactly one drawing: a two-dimensional array as it is,
    with the [cmap] argument; any other array converted from BGR to
    RGB, with no colormap. *)
Theorem plot_images_grid_rendering `{Imaging} `{Backend} (l : loc)
    (xs : list ImageType) (rows cols : Z) (titles : option (list string))
    (size : Z * Z) (cmap save_path : option string) (w w' : world) :
  heap w !! l = Some xs ->
  plot_images_grid l (rows, cols) titles size cmap save_path w = (Ok tt, w') ->
  exists g,
    delivered w w' save_path g /\
    forall i img, xs !! i = Some img ->
      exists a c,
        normalize_image img = Some (Nd a) /\ fig_cells g !! i = Some c /\
        (ndim a = 2%nat -> c_images c = [(a, cmap)]) /\
        (ndim a <> 2%nat ->
           exists rgb, cvtColor_BGR2RGB a = Some rgb /\ c_images c = [(rgb, None)]).
Proof.
  intros Hl Hrun.
  apply plot_images_grid_returns in Hrun
    as (xs' & nxs & cells & Hl' & Hn & Hle & Hlen & Hcells & Hdel & _).
  rewrite Hl in Hl'. injection Hl' as <-.
  eexists. split; [exact Hdel |]. intros i img Hx. simpl.
  destruct (normalizes_lookup _ _ _ _ Hn Hx) as (n & Hnx & Hni).
  destruct (normalize_image_nd _ _ Hni) as [a ->].
  apply lookup_lt_Some in Hx as Hlt.
  destruct (Hcells i) as (f & Hf & Hc); [lia |].
  destruct (cell_effect_images _ _ _ _ _ _ Hf Hnx) as (im & Him & Himages).
  exists a, (f blank_cell). split; [done |]. split; [done |].
  unfold shown_as in Him. split.
  - intros Hd. rewrite Hd in Him. simpl in Him. by injection Him as <-.
  - intros Hd. apply Nat.eqb_neq in Hd. rewrite Hd in Him.
    destruct (cvtColor_BGR2RGB a) as [rgb|]; [| done].
    injection Him as <-. by exists rgb.
Qed.

Lemma plot_images_grid_rendering_witness :
  let xs := [Nd (checkerboard 2); Pil rgb_photo] in
  let w := world_with xs in
  let run := @plot_images_grid reference_imaging sample_backend 0%nat (1, 2) None
               (12, 12) (Some "viridis") None w in
  heap w !! 0%nat = Some xs /\ run = (Ok tt, snd run) /\
  exists g,
    delivered w (snd run) None g /\
    forall i img, xs !! i = Some img ->
      exists a c,
        @normalize_image reference_imaging img = Some (Nd a) /\
        fig_cells g !! i = Some c /\
        (ndim a = 2%nat -> c_images c = [(a, Some "viridis")]) /\
        (ndim a <> 2%nat ->
           exists rgb, @cvtColor_BGR2RGB reference_imaging a = Some rgb /\
                       c_images c = [(rgb, None)]).
Proof.
  split; [reflexivity |]. split; [vm_compute; reflexivity |].
  apply (@plot_images_grid_rendering reference_imaging sample_backend 0%nat
           [Nd (checkerboard 2); Pil rgb_photo] 1 2 None (12, 12) (Some "viridis") None);
    [reflexivity | vm_compute; reflexivity].
Defined.

(** ** Titles *)

(** C6: the titles never decide whether the call raises: with any
    [titles], in particular a list shorter than the images, the outcome
    is the one with [titles=None]. When the call returns, the cell of
    image [i] carries [titles[i]] if there is one and no title
    otherwise. *)
Theorem plot_images_grid_titles `{Imaging} `{Backend} (l : loc) (xs : list ImageType)
    (rows cols : Z) (titles : option (list string)) (size : Z * Z)
    (cmap save_path : option string) (w : world) :
  heap w !! l = Some xs ->
  fst (plot_images_grid l (rows, cols) titles size cmap save_path w) =
    fst (plot_images_grid l (rows, cols) None size cmap save_path w) /\
  forall w',
    plot_images_grid l (rows, cols) titles size cmap save_path w = (Ok tt, w') ->
    exists g,
      delivered w w' save_path g /\
      forall i, (i < length xs)%nat ->
        exists c, fig_cells g !! i = Some c /\
          match titles with
          | Some ts => c_title c = ts !! i
          | None => c_title c = None
          end.
Proof.
  intros Hl. split.
  - unfold plot_images_grid.
    apply fst_bind_ext; intros n w1. apply fst_bind_ext; intros _ w2.
    apply fst_bind_ext; intros n2 w3.
    destruct (Z.of_nat n2 >? rows * cols); [done |].
    apply fst_bind_ext; intros axes w4. apply fst_bind_ext; intros flat w5.
    apply same_outcome_bind; [apply same_outcome_render_loop | | done].
    intros _. apply same_outcome_finish.
  - intros w' Hrun.
    apply plot_images_grid_returns in Hrun
      as (xs' & nxs & cells & Hl' & Hn & Hle & Hlen & Hcells & Hdel & _).
    rewrite Hl in Hl'. injection Hl' as <-.
    eexists. split; [exact Hdel |]. intros i Hi. simpl.
    destruct (Hcells i) as (f & Hf & Hc); [lia |].
    destruct (lookup_lt_is_Some_2 xs i Hi) as [img Hx].
    destruct (normalizes_lookup _ _ _ _ Hn Hx) as (n & Hnx & _).
    exists (f blank_cell). split; [done |].
    rewrite (cell_effect_title _ _ _ _ _ _ Hf Hnx). by destruct titles.
Qed.

Lemma plot_images_grid_titles_witness :
  let xs := [Nd (checkerboard 2); Nd bgr_pixel; Nd bgr_pixel] in
  let w := world_with xs in
  let plot t := @plot_images_grid reference_imaging sample_backend 0%nat (2, 2) t
                  (12, 12) (Some "gray") None w in
  heap w !! 0%nat = Some xs /\
  fst (plot (Some ["first"])) = fst (plot None) /\
  exists g,
    delivered w (snd (plot (Some ["first"]))) None g /\
    forall i, (i < length xs)%nat ->
      exists c, fig_cells g !! i = Some c /\ c_title c = ["first"] !! i.
Proof.
  split; [reflexivity |].
  destruct (@plot_images_grid_titles reference_imaging sample_backend 0%nat
              [Nd (checkerboard 2); Nd bgr_pixel; Nd bgr_pixel] 2 2 (Some ["first"])
              (12, 12) (Some "gray") None
              (world_with [Nd (checkerboard 2); Nd bgr_pixel; Nd bgr_pixel]) eq_refl)
    as [Hsame Htitles].
  split; [exact Hsame |].
  apply Htitles. vm_compute. reflexivity.
Defined.

(** ** Axis decorations *)

(** C7: the figure a returning call saves or shows has one cell per
    grid position, and every one of them, with or without an image, has
    its axis switched off. *)
Theorem plot_images_grid_hides_every_axis `{Imaging} `{Backend} (l : loc)
    (rows cols : Z) (titles : option (list string)) (size : Z * Z)
    (cmap save_path : option string) (w w' : world) :
  plot_images_grid l (rows, cols) titles size cmap save_path w = (Ok tt, w') ->
  exists g,
    delivered w w' save_path g /\
    Z.of_nat (length (fig_cells g)) = rows * cols /\
    Forall (fun c => c_axis_on c = false) (fig_cells g).
Proof.
  intros Hrun.
  apply plot_images_grid_returns in Hrun
    as (xs & nxs & cells & Hl & Hn & Hle & Hlen & Hcells & Hdel & _).
  eexists. split; [exact Hdel |]. simpl. split; [lia |].
  apply Forall_lookup. intros i c Hc. apply lookup_lt_Some in Hc as Hi.
  destruct (Hcells i) as (f & Hf & Hc'); [lia |].
  rewrite Hc in Hc'. injection Hc' as ->.
  by apply cell_effect_axis_off with nxs titles cmap i.
Qed.

Lemma plot_images_grid_hides_every_axis_witness :
  let w := world_with [Nd (checkerboard 2)] in
  let run := @plot_images_grid reference_imaging sample_backend 0%nat (2, 3) None
               (12, 12) (Some "gray") (Some "grid.png") w in
  run = (Ok tt, snd run) /\
  exists g,
    delivered w (snd run) (Some "grid.png") g /\
    Z.of_nat (length (fig_cells g)) = 2 * 3 /\
    Forall (fun c => c_axis_on c = false) (fig_cells g).
Proof.
  split; [vm_compute; reflexivity |].
  apply (@plot_images_grid_hides_every_axis reference_imaging sample_backend 0%nat
           2 3 None (12, 12) (Some "gray") (Some "grid.png")).
  vm_compute. reflexivity.
Defined.

(** ** The caller's list *)

Section ListFacts.
Context `{Imaging} `{Backend}.

(** Nothing after line 52 writes a list: whatever the outcome, the
    list is as the loop of lines 50-52 left it. *)
Lemma plot_images_grid_heap (l : loc) (xs : list ImageType) (rows cols : Z)
    (titles : option (list string)) (size : Z * Z) (cmap save_path : option string)
    (w : world) :
  heap w !! l = Some xs ->
  heap (snd (plot_images_grid l (rows, cols) titles size cmap save_path w)) =
    <[l := normalize_prefix xs]> (heap w).
Proof.
  intros Hl. unfold plot_images_grid.
  destruct (normalize_cases xs) as [[nxs Hn] | (good & ngood & p & rest & -> & Hg & Hp)].
  - rewrite (plot_prefix_run l xs nxs w _ Hl Hn), (normalize_prefix_all _ _ Hn).
    destruct (Z.of_nat (length xs) >? rows * cols); [done |].
    match goal with
    | |- heap (snd (?m ?w1)) = _ => assert (Hk : keeps_heap m)
    end.
    { apply keeps_heap_bind; [apply keeps_heap_plt_subplots |]. intros axes.
      apply keeps_heap_bind; [apply keeps_heap_axes_flat |]. intros flat.
      apply keeps_heap_bind; [apply keeps_heap_render_loop |]. intros _.
      apply finish_keeps_heap. }
    by rewrite Hk.
  - by rewrite (plot_prefix_fail l good ngood p rest w _ Hl Hg Hp),
               (normalize_prefix_stop _ _ _ _ Hg Hp).
Qed.

End ListFacts.

(** C9, as the code has it: whatever the outcome of the call, the list
    object passed as [images] afterwards is the one the loop of lines
    50-52 left. When [pillow_to_cv2] accepts every PIL entry, the list
    holds the converted array in place of each (its other entries are
    as before), and with more images than cells the call raises the
    capacity error with the list already rewritten. When it rejects an
    entry, the call raises [cv2.error]; the entries before the first
    rejected one are converted, that entry and all later ones, PIL or
    not, are as they were. *)
Theorem plot_images_grid_rewrites_list `{Imaging} `{Backend} (l : loc)
    (xs : list ImageType) (rows cols : Z) (titles : option (list string))
    (size : Z * Z) (cmap save_path : option string) (w : world) :
  heap w !! l = Some xs ->
  let run := plot_images_grid l (rows, cols) titles size cmap save_path w in
  heap (snd run) = <[l := normalize_prefix xs]> (heap w) /\
  ((forall i p, xs !! i = Some (Pil p) -> is_Some (pillow_to_cv2 p)) ->
     (forall i p, xs !! i = Some (Pil p) ->
        exists a ys, pillow_to_cv2 p = Some a /\
                     heap (snd run) !! l = Some ys /\ ys !! i = Some (Nd a)) /\
     (forall i a, xs !! i = Some (Nd a) ->
        exists ys, heap (snd run) !! l = Some ys /\ ys !! i = Some (Nd a)) /\
     (rows * cols < Z.of_nat (length xs) ->
        fst run = Raise (ValueError grid_error))) /\
  (forall good p rest,
     xs = good ++ Pil p :: rest ->
     (forall i q, good !! i = Some (Pil q) -> is_Some (pillow_to_cv2 q)) ->
     pillow_to_cv2 p = None ->
     fst run = Raise Cv2Error /\
     exists ngood,
       normalizes good ngood /\
       heap (snd run) !! l = Some (ngood ++ Pil p :: rest)).
Proof.
  intros Hl run.
  assert (Hheap : heap (snd run) = <[l := normalize_prefix xs]> (heap w))
    by by apply plot_images_grid_heap.
  split; [done |]. rewrite Hheap, lookup_insert_eq. split.
  - intros Hall. destruct (accepted_normalizes xs Hall) as [nxs Hn].
    rewrite (normalize_prefix_all _ _ Hn). repeat split.
    + intros i p Hx. destruct (normalizes_lookup _ _ _ _ Hn Hx) as (n & Hnx & Hp).
      simpl in Hp. destruct (pillow_to_cv2 p) as [a|]; [| done].
      injection Hp as <-. by exists a, nxs.
    + intros i a Hx. destruct (normalizes_lookup _ _ _ _ Hn Hx) as (n & Hnx & Hp).
      injection Hp as <-. by exists nxs.
    + intros Hgt. unfold run, plot_images_grid.
      rewrite (plot_prefix_run l xs nxs w _ Hl Hn). rewrite Z.gtb_ltb.
      by destruct (Z.ltb_spec (rows * cols) (Z.of_nat (length xs))); [| lia].
  - intros good p rest -> Hgood Hp.
    destruct (accepted_normalizes good Hgood) as [ngood Hg]. split.
    + unfold run, plot_images_grid.
      by rewrite (plot_prefix_fail l good ngood p rest w _ Hl Hg Hp).
    + exists ngood. split; [done |].
      by rewrite (normalize_prefix_stop _ _ _ _ Hg Hp).
Qed.

Lemma plot_images_grid_rewrites_list_witness :
  let xs := [Pil rgb_photo; Nd (checkerboard 2); Pil rgb_photo] in
  let w := world_with xs in
  let run := @plot_images_grid reference_imaging sample_backend 0%nat (1, 2) None
               (12, 12) (Some "gray") None w in
  heap w !! 0%nat = Some xs /\
  heap (snd run) !! 0%nat =
    Some [Nd (NdArray [1; 1; 3]%nat [10; 20; 30]); Nd (checkerboard 2);
          Nd (NdArray [1; 1; 3]%nat [10; 20; 30])] /\
  fst run = Raise (ValueError grid_error).
Proof.
  split; [reflexivity |].
  destruct (@plot_images_grid_rewrites_list reference_imaging sample_backend 0%nat
              [Pil rgb_photo; Nd (checkerboard 2); Pil rgb_photo] 1 2 None (12, 12)
              (Some "gray") None
              (world_with [Pil rgb_photo; Nd (checkerboard 2); Pil rgb_photo]) eq_refl)
    as (Hheap & Hall & _).
  split; [rewrite Hheap; reflexivity |].
  apply Hall; [| simpl; lia].
  intros [|[|[|i]]] p; simpl; intros [= <-]; by eexists.
Defined.

(** Against C9 as stated: three PIL images on a 1x2 grid, the second
    with two channels. Its conversion raises [cv2.error]: it and the
    PIL image after it stay in the caller's list unconverted, and the
    capacity error is not raised. *)
Lemma plot_images_grid_leaves_pil_entries :
  let xs := [Pil rgb_photo; Pil gray_alpha_photo; Pil rgb_photo] in
  let run := @plot_images_grid reference_imaging sample_backend 0%nat (1, 2) None
               (12, 12) (Some "gray") None (world_with xs) in
  1 * 2 < Z.of_nat (length xs) /\
  fst run = Raise Cv2Error /\
  heap (snd run) !! 0%nat =
    Some [Nd (NdArray [1; 1; 3]%nat [10; 20; 30]); Pil gray_alpha_photo; Pil rgb_photo].
Proof. vm_compute. repeat split. Qed.

(** ** The driver's precondition *)

(** C8: without an experiment name the driver stops at the assertion of
    line 82. It has set [args.wandb] and done nothing else: no device is
    selected, no dataset constructed, no model built or loaded, nothing
    plotted. *)
Theorem bounding_box_prompt_requires_exp_name `{Imaging} `{Backend} `{Collaborators}
    (w : world) :
  exp_name (args w) = None ->
  exists w',
    bounding_box_prompt w = (Raise AssertionError, w') /\
    log w' = log w /\
    args w' = set_wandb (Some false) (args w) /\
    heap w' = heap w /\ figs w' = figs w /\
    saved w' = saved w /\ displayed w' = displayed w.
Proof.
  intros Hname. unfold bounding_box_prompt, bind, modify, get. simpl.
  rewrite Hname. eexists. split; [reflexivity |]. done.
Qed.

Lemma bounding_box_prompt_requires_exp_name_witness :
  let w := world_of_args (europa_args None) in
  exp_name (args w) = None /\
  exists w',
    @bounding_box_prompt reference_imaging sample_backend sample_collaborators w =
      (Raise AssertionError, w') /\
    log w' = log w /\
    args w' = set_wandb (Some false) (args w) /\
    heap w' = heap w /\ figs w' = figs w /\
    saved w' = saved w /\ displayed w' = displayed w.
Proof.
  split; [reflexivity |].
  apply (@bounding_box_prompt_requires_exp_name reference_imaging sample_backend
           sample_collaborators).
  reflexivity.
Defined.

(** With a name the same arguments run the whole pipeline: device,
    dataset, loader, model, generator, one plot. *)
Example bounding_box_prompt_named_run :
  let run := @bounding_box_prompt reference_imaging sample_backend sample_collaborators
               (world_of_args (europa_args (Some "run1"))) in
  fst run = Ok tt /\
  log (snd run) =
    [EvDevice Cpu; EvDeviceCount; EvDataset "Europa" "/data"; EvDataLoader "Europa";
     EvGetModel (Some "lora.pt"); EvModelTo Cpu; EvGenerate 0;
     EvSubplots 1 2; EvShow; EvClose].
Proof. vm_compute. split; reflexivity. Qed.

(** * Further properties *)

Lemma surroundings_ignores : ignores_drawing surroundings.
Proof. by split. Qed.

Lemma log_ignores : ignores_drawing log.
Proof. by split. Qed.

Lemma surroundings_list_len (l : loc) : keeps surroundings (list_len l).
Proof. apply drawing_list_len. Qed.

Lemma surroundings_axes_flat (axes : axes_value) : keeps surroundings (axes_flat axes).
Proof. apply drawing_axes_flat. Qed.

Lemma surroundings_plt_subplots (rows cols : Z) (size : Z * Z) :
  keeps surroundings (plt_subplots rows cols size).
Proof.
  intros w. rewrite plt_subplots_run. cbv zeta.
  destruct ((fst size <? 0) || (snd size <? 0)); [done |].
  by destruct ((rows <=? 0) || (cols <=? 0)).
Qed.

Section PlotFrames.
Context `{Imaging} `{Backend}.

Lemma surroundings_normalize_loop (l : loc) (n idx : nat) :
  keeps surroundings (normalize_loop l idx n).
Proof. apply drawing_normalize_loop, surroundings_ignores. Qed.

Lemma surroundings_render_loop l titles cmap axs idx :
  keeps surroundings (render_loop l titles cmap idx axs).
Proof. apply drawing_render_loop, surroundings_ignores. Qed.

(** Up to line 72 nothing outside the figures and the list is touched:
    what the call does to its surroundings is what lines 73-77 do. *)
Lemma plot_images_grid_keeps {X} (f : _ -> X) (l : loc) (rows cols : Z)
    (titles : option (list string)) (size : Z * Z) (cmap save_path : option string) :
  keeps (fun w => f (surroundings w))
    ((if truthy save_path
      then plt_savefig (default EmptyString save_path)
      else plt_show) ;; plt_close)%py ->
  keeps (fun w => f (surroundings w))
    (plot_images_grid l (rows, cols) titles size cmap save_path).
Proof.
  intros Hfinish. unfold plot_images_grid.
  apply keeps_bind; [apply keeps_weaken, surroundings_list_len |]. intros n.
  apply keeps_bind; [apply keeps_weaken, surroundings_normalize_loop |]. intros _.
  apply keeps_bind; [apply keeps_weaken, surroundings_list_len |]. intros n2.
  destruct (Z.of_nat n2 >? rows * cols); [done |].
  apply keeps_bind; [apply keeps_weaken, surroundings_plt_subplots |]. intros axes.
  apply keeps_bind; [apply keeps_weaken, surroundings_axes_flat |]. intros flat.
  apply keeps_bind; [apply keeps_weaken, surroundings_render_loop |]. intros _.
  exact Hfinish.
Qed.

Lemma plot_images_grid_keeps_on_raise {X} (f : _ -> X) (l : loc) (rows cols : Z)
    (titles : option (list string)) (size : Z * Z) (cmap save_path : option string) :
  keeps_on_raise (fun w => f (surroundings w))
    ((if truthy save_path
      then plt_savefig (default EmptyString save_path)
      else plt_show) ;; plt_close)%py ->
  keeps_on_raise (fun w => f (surroundings w))
    (plot_images_grid l (rows, cols) titles size cmap save_path).
Proof.
  intros Hfinish. unfold plot_images_grid.
  apply keeps_on_raise_bind; [apply keeps_weaken, surroundings_list_len |]. intros n.
  apply keeps_on_raise_bind; [apply keeps_weaken, surroundings_normalize_loop |].
  intros _.
  apply keeps_on_raise_bind; [apply keeps_weaken, surroundings_list_len |]. intros n2.
  destruct (Z.of_nat n2 >? rows * cols); [apply keeps_on_raise_raise |].
  apply keeps_on_raise_bind; [apply keeps_weaken, surroundings_plt_subplots |].
  intros axes.
  apply keeps_on_raise_bind; [apply keeps_weaken, surroundings_axes_flat |].
  intros flat.
  apply keeps_on_raise_bind; [apply keeps_weaken, surroundings_render_loop |].
  intros _. exact Hfinish.
Qed.

(** Saving, showing and closing leave [args] alone. *)
Lemma finish_keeps_args (save_path : option string) :
  keeps args
    ((if truthy save_path
      then plt_savefig (default EmptyString save_path)
      else plt_show) ;; plt_close)%py.
Proof.
  apply keeps_bind; [| done].
  destruct (truthy save_path); [| done].
  intros w. unfold plt_savefig, plt_gcf, bind, emit, modify, get. simpl.
  destruct (figs w); simpl; by destruct (fst (savefig_io _ _)).
Qed.

(** [plt.savefig] that raises has saved nothing; [plt.show] and
    [plt.close] do not raise. *)
Lemma finish_output_on_raise (save_path : option string) :
  keeps_on_raise output
    ((if truthy save_path
      then plt_savefig (default EmptyString save_path)
      else plt_show) ;; plt_close)%py.
Proof.
  destruct (truthy save_path);
    [| apply keeps_on_raise_quiet, finish_shown_quiet].
  intros w e. unfold plt_savefig, plt_gcf, plt_close, bind, emit, modify, get. simpl.
  destruct (figs w); simpl; by destruct (fst (savefig_io _ _)).
Qed.

(** What [plt.savefig] does to the directory tree is the backend's
    doing. *)
Lemma finish_dirs (save_path : option string) (w : world) :
  dirs (snd (((if truthy save_path
               then plt_savefig (default EmptyString save_path)
               else plt_show) ;; plt_close)%py w)) =
    if truthy save_path
    then snd (savefig_io (default EmptyString save_path) (dirs w))
    else dirs w.
Proof.
  destruct (truthy save_path); [| done].
  unfold plt_savefig, plt_gcf, plt_close, bind, emit, modify, get. simpl.
  destruct (figs w); simpl; by destruct (fst (savefig_io _ _)).
Qed.

Lemma plot_images_grid_keeps_args (l : loc) (rows cols : Z)
    (titles : option (list string)) (size : Z * Z) (cmap save_path : option string) :
  keeps args (plot_images_grid l (rows, cols) titles size cmap save_path).
Proof.
  apply (plot_images_grid_keeps (fun s => s.2)), finish_keeps_args.
Qed.

(** Without a save path nothing is saved and no directory changes. *)
Lemma plot_images_grid_shown_keeps_unsaved (l : loc) (rows cols : Z)
    (titles : option (list string)) (size : Z * Z) (cmap : option string) :
  keeps unsaved (plot_images_grid l (rows, cols) titles size cmap None).
Proof.
  by apply (plot_images_grid_keeps (fun s => (s.1.1.1, s.1.2, s.2))).
Qed.

(** The directory tree after a call: as before, or as [plt.savefig]
    left it. *)
Lemma plot_images_grid_dirs (l : loc) (rows cols : Z)
    (titles : option (list string)) (size : Z * Z) (cmap save_path : option string)
    (w : world) :
  let w' := snd (plot_images_grid l (rows, cols) titles size cmap save_path w) in
  dirs w' = dirs w \/
  (truthy save_path = true /\
   dirs w' = snd (savefig_io (default EmptyString save_path) (dirs w))).
Proof.
  assert (Hbind : forall {A B} (m : M A) (k : A -> M B) (P : world -> world -> Prop),
            keeps dirs m ->
            (forall w, P w w) ->
            (forall w1 w2 w3, dirs w1 = dirs w2 -> P w2 w3 -> P w1 w3) ->
            (forall a w, P w (snd (k a w))) ->
            forall w, P w (snd (bind m k w))).
  { intros A B m k P Hm Hrefl Htrans Hk w0. unfold bind. specialize (Hm w0).
    destruct (m w0) as [[a|e] w1]; simpl in *.
    - apply Htrans with w1; [done | apply Hk].
    - apply Htrans with w1; [done | apply Hrefl]. }
  set (P := fun w0 w1 : world =>
              dirs w1 = dirs w0 \/
              (truthy save_path = true /\
               dirs w1 = snd (savefig_io (default EmptyString save_path) (dirs w0)))).
  assert (Hrefl : forall w0, P w0 w0) by (by left).
  assert (Htrans : forall w1 w2 w3, dirs w1 = dirs w2 -> P w2 w3 -> P w1 w3).
  { intros w1 w2 w3 Hd. unfold P. by rewrite Hd. }
  change (P w (snd (plot_images_grid l (rows, cols) titles size cmap save_path w))).
  unfold plot_images_grid.
  apply Hbind; [apply (keeps_weaken surroundings (fun s => s.1.2)),
                  surroundings_list_len | done | done |].
  intros n w1.
  apply Hbind; [apply (keeps_weaken surroundings (fun s => s.1.2)),
                  surroundings_normalize_loop | done | done |].
  intros _ w2.
  apply Hbind; [apply (keeps_weaken surroundings (fun s => s.1.2)),
                  surroundings_list_len | done | done |].
  intros n2 w3. destruct (Z.of_nat n2 >? rows * cols); [apply Hrefl |].
  apply Hbind; [apply (keeps_weaken surroundings (fun s => s.1.2)),
                  surroundings_plt_subplots | done | done |].
  intros axes w4.
  apply Hbind; [apply (keeps_weaken surroundings (fun s => s.1.2)),
                  surroundings_axes_flat | done | done |].
  intros flat w5.
  apply Hbind; [apply (keeps_weaken surroundings (fun s => s.1.2)),
                  surroundings_render_loop | done | done |].
  intros _ w6. unfold P. rewrite finish_dirs.
  destruct (truthy save_path); [by right | by left].
Qed.

End PlotFrames.

(** ** More on [plot_images_grid] *)

Section PlotMore.
Context `{Imaging} `{Backend}.

Lemma normalize_prefix_length (xs : list ImageType) :
  length (normalize_prefix xs) = length xs.
Proof.
  induction xs as [|img xs IH]; [done |]. cbn [normalize_prefix].
  destruct (normalize_image img); [| done]. cbn [length]. by rewrite IH.
Qed.

(** Converting again changes nothing: arrays are passed over, and the
    entry that was rejected is rejected again. *)
Lemma normalize_prefix_idemp (xs : list ImageType) :
  normalize_prefix (normalize_prefix xs) = normalize_prefix xs.
Proof.
  induction xs as [|img xs IH]; [done |]. cbn [normalize_prefix].
  destruct (normalize_image img) as [n|] eqn:Hn.
  - destruct (normalize_image_nd _ _ Hn) as [a ->]. cbn [normalize_prefix normalize_image].
    by rewrite IH.
  - cbn [normalize_prefix]. by rewrite Hn.
Qed.

Lemma shown_as_total (a : ndarray) (cmap : option string) :
  (ndim a <> 2%nat -> is_Some (cvtColor_BGR2RGB a)) -> is_Some (shown_as a cmap).
Proof.
  intros Hc. unfold shown_as. destruct (Nat.eqb_spec (ndim a) 2); [done |].
  destruct (Hc n) as [rgb ->]. done.
Qed.


(** X2: on a 1x1 grid every call within capacity, with entries that
    convert and a figure size that is not negative, raises
    [AttributeError] at [axes.flat]; the figure just allocated stays
    open with its blank cell, nothing is saved or shown. *)
Theorem plot_images_grid_single_cell_leaves_figure (l : loc) (xs : list ImageType)
    (titles : option (list string)) (size : Z * Z) (cmap save_path : option string)
    (w : world) :
  heap w !! l = Some xs ->
  (forall i p, xs !! i = Some (Pil p) -> is_Some (pillow_to_cv2 p)) ->
  (length xs <= 1)%nat ->
  0 <= fst size -> 0 <= snd size ->
  exists w',
    plot_images_grid l (1, 1) titles size cmap save_path w =
      (Raise (AttributeError "'Axes' object has no attribute 'flat'"), w') /\
    figs w' = Figure (next_fig_num (figs w)) (Some size) [blank_cell] :: figs w /\
    saved w' = saved w /\ displayed w' = displayed w /\
    log w' = log w ++ [EvSubplots 1 1].
Proof.
  intros Hl Hall Hlen Hw Hh.
  destruct (accepted_normalizes xs Hall) as [nxs Hn].
  rewrite (single_cell_grid_always_raises l xs nxs titles size cmap save_path w)
    by done.
  eexists. split; [reflexivity |]. done.
Qed.

(** X3: a call that raises has displayed nothing, and no [plt.savefig]
    of it has returned. *)
Theorem plot_images_grid_raise_without_output (l : loc) (rows cols : Z)
    (titles : option (list string)) (size : Z * Z) (cmap save_path : option string)
    (w : world) (e : exn) :
  fst (plot_images_grid l (rows, cols) titles size cmap save_path w) = Raise e ->
  saved (snd (plot_images_grid l (rows, cols) titles size cmap save_path w)) = saved w /\
  displayed (snd (plot_images_grid l (rows, cols) titles size cmap save_path w))
    = displayed w.
Proof.
  intros He.
  pose proof (plot_images_grid_keeps_on_raise (fun s => (s.1.1.1, s.1.1.2))
                l rows cols titles size cmap save_path
                (finish_output_on_raise save_path) w e He) as Hk.
  simpl in Hk. by injection Hk.
Qed.

(** X4: in the figure of a returning call the cells beyond the images
    are empty: no image, no title (also when [titles] is longer than
    [images]), axis off. *)
Theorem plot_images_grid_spare_cells (l : loc) (xs : list ImageType)
    (rows cols : Z) (titles : option (list string)) (size : Z * Z)
    (cmap save_path : option string) (w w' : world) :
  heap w !! l = Some xs ->
  plot_images_grid l (rows, cols) titles size cmap save_path w = (Ok tt, w') ->
  exists g,
    delivered w w' save_path g /\
    forall i, (length xs <= i)%nat -> Z.of_nat i < rows * cols ->
      fig_cells g !! i = Some (Cell [] None false).
Proof.
  intros Hl Hrun.
  apply plot_images_grid_returns in Hrun
    as (xs' & nxs & cells & Hl' & Hn & Hle & Hlen & Hcells & Hdel & _).
  rewrite Hl in Hl'. injection Hl' as <-.
  eexists. split; [exact Hdel |]. intros i Hi Hlt. simpl.
  destruct (Hcells i) as (f & Hf & Hc); [lia |].
  unfold cell_effect in Hf.
  rewrite (lookup_ge_None_2 nxs i) in Hf
    by (rewrite (normalizes_length _ _ Hn); lia).
  injection Hf as <-. exact Hc.
Qed.

(** X5: after a call, whatever its outcome, the list has its length,
    and holds arrays only when [pillow_to_cv2] accepts every PIL entry;
    a further call, with any arguments, leaves every list as the first
    one left it. *)
Theorem plot_images_grid_second_call (l : loc) (xs : list ImageType)
    (rows cols rows2 cols2 : Z) (titles titles2 : option (list string))
    (size size2 : Z * Z) (cmap save_path cmap2 save_path2 : option string)
    (w : world) :
  heap w !! l = Some xs ->
  let w1 := snd (plot_images_grid l (rows, cols) titles size cmap save_path w) in
  (exists ys, heap w1 !! l = Some ys /\ length ys = length xs /\
     ((forall i p, xs !! i = Some (Pil p) -> is_Some (pillow_to_cv2 p)) ->
      Forall is_array ys)) /\
  heap (snd (plot_images_grid l (rows2, cols2) titles2 size2 cmap2 save_path2 w1))
    = heap w1.
Proof.
  intros Hl w1.
  assert (Hw1 : heap w1 = <[l := normalize_prefix xs]> (heap w))
    by by apply plot_images_grid_heap.
  assert (Hl1 : heap w1 !! l = Some (normalize_prefix xs))
    by by rewrite Hw1, lookup_insert_eq.
  split.
  - eexists. split; [exact Hl1 |]. split; [apply normalize_prefix_length |].
    intros Hall. destruct (accepted_normalizes xs Hall) as [nxs Hn].
    rewrite (normalize_prefix_all _ _ Hn). by apply normalized_are_arrays with xs.
  - rewrite (plot_images_grid_heap l _ _ _ _ _ _ _ w1 Hl1).
    rewrite normalize_prefix_idemp. by apply insert_id.
Qed.

(** X6: whatever its outcome, a call leaves [args] and every list
    object other than [images] as they were; the directory tree is as
    it was or, when a non-empty [save_path] was given, as [plt.savefig]
    left it. *)
Theorem plot_images_grid_touches_nothing_else (l : loc) (rows cols : Z)
    (titles : option (list string)) (size : Z * Z) (cmap save_path : option string)
    (w : world) :
  let w' := snd (plot_images_grid l (rows, cols) titles size cmap save_path w) in
  args w' = args w /\
  (forall l', l' <> l -> heap w' !! l' = heap w !! l') /\
  (dirs w' = dirs w \/
   (truthy save_path = true /\
    dirs w' = snd (savefig_io (default EmptyString save_path) (dirs w)))).
Proof.
  intros w'.
  split; [apply plot_images_grid_keeps_args |].
  split; [| apply plot_images_grid_dirs].
  intros l' Hne. unfold w'.
  destruct (heap w !! l) as [xs|] eqn:Hl.
  - rewrite (plot_images_grid_heap l xs _ _ _ _ _ _ w Hl).
    by apply lookup_insert_ne.
  - unfold plot_images_grid. unfold bind at 1. unfold list_len, bind, get. simpl.
    by rewrite Hl.
Qed.

(** X7: a call rejected for capacity on a list of arrays leaves the
    world exactly as it found it. *)
Theorem plot_images_grid_rejection_is_clean (l : loc) (xs : list ImageType)
    (rows cols : Z) (titles : option (list string)) (size : Z * Z)
    (cmap save_path : option string) (w : world) :
  heap w !! l = Some xs ->
  Forall is_array xs ->
  rows * cols < Z.of_nat (length xs) ->
  plot_images_grid l (rows, cols) titles size cmap save_path w =
    (Raise (ValueError grid_error), w).
Proof.
  intros Hl Harr Hgt. unfold plot_images_grid.
  rewrite (plot_prefix_run l xs xs w _ Hl (normalizes_arrays xs Harr)).
  rewrite Z.gtb_ltb. destruct (Z.ltb_spec (rows * cols) (Z.of_nat (length xs))); [| lia].
  rewrite insert_id by done. by rewrite set_heap_id.
Qed.

(** X8: the capacity check compares with the product only: a grid with
    a dimension that is not positive passes it when the product is
    large enough, and the call then fails in [plt.subplots] with the
    layout's [ValueError], not with the capacity error. *)
Theorem plot_images_grid_nonpositive_grid (l : loc) (xs : list ImageType)
    (rows cols : Z) (titles : option (list string)) (size : Z * Z)
    (cmap save_path : option string) (w : world) :
  heap w !! l = Some xs ->
  (forall i p, xs !! i = Some (Pil p) -> is_Some (pillow_to_cv2 p)) ->
  Z.of_nat (length xs) <= rows * cols ->
  rows <= 0 \/ cols <= 0 ->
  0 <= fst size -> 0 <= snd size ->
  fst (plot_images_grid l (rows, cols) titles size cmap save_path w) =
    Raise (ValueError (layout_error rows cols)) /\
  layout_error rows cols <> grid_error.
Proof.
  intros Hl Hall Hle Hneg Hw Hh. split.
  - destruct (accepted_normalizes xs Hall) as [nxs Hn].
    unfold plot_images_grid. rewrite (plot_prefix_run l xs nxs w _ Hl Hn).
    rewrite Z.gtb_ltb. destruct (Z.ltb_spec (rows * cols) (Z.of_nat (length xs))); [lia |].
    unfold bind at 1. rewrite plt_subplots_run. cbv zeta.
    destruct (Z.ltb_spec (fst size) 0); [lia |].
    destruct (Z.ltb_spec (snd size) 0); [lia |]. cbn [orb].
    replace ((rows <=? 0) || (cols <=? 0)) with true; [done |].
    symmetry. apply orb_true_iff. rewrite !Z.leb_le. done.
  - unfold layout_error, grid_error. destruct (rows <=? 0); simpl; discriminate.
Qed.

End PlotMore.

(** ** More on the checkpoint resolver *)

Lemma resolve_ckpts_directory (ckpt : string) (entries : list string) (w : world) :
  dirs w !! ckpt = Some entries ->
  resolve_ckpts ckpt w =
    (Ok (os_path_join ckpt <$> List.filter is_ckpt_entry entries), w).
Proof.
  intros Hd. unfold resolve_ckpts, os_path_isdir, os_listdir, bind, get, ret. simpl.
  rewrite Hd. simpl. by rewrite Hd.
Qed.

Lemma resolve_ckpts_returns (ckpt : string) (w : world) :
  exists ps, resolve_ckpts ckpt w = (Ok ps, w).
Proof.
  destruct (dirs w !! ckpt) as [entries|] eqn:Hd.
  - eexists. by apply resolve_ckpts_directory.
  - exists [ckpt]. unfold resolve_ckpts, os_path_isdir, bind, get, ret. simpl.
    by rewrite Hd.
Qed.

(** X9: in a directory the selected entries are those with '.pt'
    somewhere in the name, whatever follows it: the test is for a
    substring, not for the file's suffix. *)
Theorem resolve_ckpts_selects_by_substring (ckpt : string) (entries : list string)
    (w : world) :
  dirs w !! ckpt = Some entries ->
  exists ps,
    resolve_ckpts ckpt w = (Ok ps, w) /\
    forall p, In p ps <->
      exists x pre post,
        In x entries /\ x = pre +:+ ".pt" +:+ post /\ p = os_path_join ckpt x.
Proof.
  intros Hd. eexists. split; [by apply resolve_ckpts_directory |].
  intros p. rewrite in_map_iff. split.
  - intros (x & <- & Hx). apply filter_In in Hx as [Hx Hm].
    rewrite is_ckpt_entry_simplifies in Hm.
    apply contains_spec in Hm as (pre & post & ->).
    by exists (pre +:+ ".pt" +:+ post), pre, post.
  - intros (x & pre & post & Hx & Hname & ->). exists x. split; [done |].
    apply filter_In. split; [done |]. rewrite is_ckpt_entry_simplifies.
    apply contains_spec. by exists pre, post.
Qed.

(** ** More on the driver *)

(** X12: the loader's batches are the samples in order, each batch
    holding one or two of them. *)
Theorem batches_partition (xs : list Sample) :
  concat (batches xs) = xs /\
  Forall (fun b => (1 <= length b <= 2)%nat) (batches xs) /\
  (length (batches xs) = (length xs + 1) / 2)%nat.
Proof.
  assert (Hboth : forall xs x,
            (concat (batches xs) = xs /\
             Forall (fun b => (1 <= length b <= 2)%nat) (batches xs) /\
             (length (batches xs) = (length xs + 1) / 2)%nat) /\
            (concat (batches (x :: xs)) = x :: xs /\
             Forall (fun b => (1 <= length b <= 2)%nat) (batches (x :: xs)) /\
             (length (batches (x :: xs)) = (length (x :: xs) + 1) / 2)%nat)).
  { clear xs. induction xs as [|y ys IH]; intros x.
    - split; [by repeat split |]. split; [done |]. split; [| done].
      repeat constructor.
    - split; [apply IH |].
      destruct (IH y) as [(Hc & Hf & Hn) _].
      cbn [batches concat length]. rewrite Hc, Hn. split; [done |]. split.
      + constructor; [simpl; lia | done].
      + replace (S (S (length ys)) + 1)%nat with (length ys + 1 + 1 * 2)%nat by lia.
        rewrite Nat.div_add by lia. lia. }
  destruct xs as [|x xs]; [by repeat split | apply Hboth].
Qed.

Lemma filter_none {A} (f : A -> bool) (xs : list A) :
  Forall (fun x => f x = false) xs -> List.filter f xs = [].
Proof. induction 1 as [|x xs Hx _ IH]; simpl; [done | by rewrite Hx]. Qed.

Lemma unsaved_driver_inputs {A} (m : M A) :
  keeps unsaved m -> keeps driver_inputs m.
Proof.
  apply (keeps_weaken unsaved
           (fun s => (s.1.1, s.1.2, wandb s.2, exp_name s.2, testing_ckpt s.2,
                      eval_datasets s.2, data_location s.2))).
Qed.

Section DriverMore.
Context `{Imaging} `{Backend} `{Collaborators}.

Lemma inputs_show_prediction dev inp boxes i m :
  keeps driver_inputs (show_prediction dev inp boxes i m).
Proof.
  unfold show_prediction.
  destruct (inp !! i); [| done]. destruct (boxes !! i); [| done].
  apply keeps_bind; [by destruct dev |]. intros xyxy.
  apply keeps_bind; [done |]. intros l.
  apply unsaved_driver_inputs, plot_images_grid_shown_keeps_unsaved.
Qed.

Lemma inputs_run_ckpt dev dataset fold_ckpt :
  keeps driver_inputs (run_ckpt dev dataset fold_ckpt).
Proof.
  unfold run_ckpt.
  apply keeps_bind; [done |]. intros _.
  apply keeps_bind; [done |]. intros w.
  apply keeps_bind; [done |]. intros _.
  apply keeps_bind.
  - destruct (truthy (testing_ckpt (args w))); [| done].
    apply keeps_bind; [done |]. intros _.
    by destruct (load_state_dict _ _ _).
  - intros model. apply keeps_bind; [done |]. intros _.
    apply keeps_for_enumerate. intros k batch. unfold run_batch.
    apply keeps_bind; [done |]. intros _.
    apply keeps_for_enumerate. intros. apply inputs_show_prediction.
Qed.

Lemma inputs_run_dataset dev ckpts name :
  keeps driver_inputs (run_dataset dev ckpts name).
Proof.
  unfold run_dataset. destruct (dataset_class name) as [cls|]; [| done].
  apply keeps_bind; [done |]. intros w.
  apply keeps_bind; [done |]. intros _.
  apply keeps_bind; [done |]. intros _.
  apply keeps_bind; [done |]. intros _.
  apply keeps_for_enumerate. intros. apply inputs_run_ckpt.
Qed.

Lemma inputs_resolve_ckpts ckpt : keeps driver_inputs (resolve_ckpts ckpt).
Proof. intros w. destruct (resolve_ckpts_returns ckpt w) as [ps ->]. done. Qed.

(** X13: whatever its outcome, the driver saves no figure, changes no
    directory, leaves [args.wandb] false and leaves the arguments it
    reads ([exp_name], [testing_ckpt], [eval_datasets],
    [data_location]) as they were. *)
Theorem bounding_box_prompt_frame (w : world) :
  let w' := snd (bounding_box_prompt w) in
  saved w' = saved w /\ dirs w' = dirs w /\
  wandb (args w') = Some false /\
  exp_name (args w') = exp_name (args w) /\
  testing_ckpt (args w') = testing_ckpt (args w) /\
  eval_datasets (args w') = eval_datasets (args w) /\
  data_location (args w') = data_location (args w).
Proof.
  intros w'.
  set (w0 := set_args (set_wandb (Some false) (args w)) w).
  assert (Hk : driver_inputs w' = driver_inputs w0).
  { unfold w', bounding_box_prompt. unfold bind at 1. unfold modify at 1.
    fold w0.
    match goal with
    | |- driver_inputs (snd (?m w0)) = _ => assert (Hm : keeps driver_inputs m)
    end.
    { apply keeps_bind; [done |]. intros w1.
      destruct (exp_name (args w1)); [| done].
      apply keeps_bind; [done |]. intros _.
      apply keeps_bind; [done |]. intros _.
      destruct (match lora_ckpt (args w1) with
                | Some c => Some c
                | None => testing_ckpt (args w1)
                end) as [ckpt|]; [| done].
      apply keeps_bind; [apply inputs_resolve_ckpts |]. intros ckpts.
      apply keeps_for_enumerate. intros. apply inputs_run_dataset. }
    apply Hm. }
  unfold driver_inputs in Hk. simpl in Hk.
  by injection Hk as -> -> -> -> -> -> ->.
Qed.

End DriverMore.


Section DriverRuns.
Context `{Imaging} `{Backend} `{Collaborators}.

(** Up to the loop over the datasets. *)
Lemma bounding_box_prompt_start (w : world) (name ckpt : string) :
  exp_name (args w) = Some name ->
  chosen_ckpt (args w) = Some ckpt ->
  exists ckpts w0,
    resolve_ckpts ckpt w = (Ok ckpts, w) /\
    log w0 = log w ++ [EvDevice (if cuda_is_available then Cuda0 else Cpu); EvDeviceCount] /\
    heap w0 = heap w /\ figs w0 = figs w /\ displayed w0 = displayed w /\
    data_location (args w0) = data_location (args w) /\
    bounding_box_prompt w =
      for_enumerate 0 (eval_datasets (args w))
        (fun _ => run_dataset (if cuda_is_available then Cuda0 else Cpu) ckpts) w0.
Proof.
  intros Hname Hckpt.
  destruct (resolve_ckpts_returns ckpt w) as [ckpts Hres].
  set (dev := if cuda_is_available then Cuda0 else Cpu).
  set (wa := set_args (set_wandb (Some false) (args w)) w).
  set (wb := set_log (log wa ++ [EvDevice dev]) wa).
  set (w0 := set_log (log wb ++ [EvDeviceCount]) wb).
  exists ckpts, w0. split; [exact Hres |].
  split; [simpl; by rewrite <- app_assoc |].
  do 4 (split; [done |]).
  assert (Hres0 : resolve_ckpts ckpt w0 = (Ok ckpts, w0)).
  { destruct (dirs w !! ckpt) as [entries|] eqn:Hd.
    - rewrite (resolve_ckpts_directory ckpt entries w Hd) in Hres.
      injection Hres as <-. by apply resolve_ckpts_directory.
    - revert Hres. unfold resolve_ckpts, os_path_isdir, bind, get, ret. simpl.
      rewrite Hd. simpl. by intros [= <-]. }
  unfold chosen_ckpt in Hckpt.
  unfold bounding_box_prompt. unfold bind at 1. unfold modify at 1. cbv beta iota.
  fold wa. unfold bind at 1. unfold get at 1. cbv beta iota.
  change (exp_name (args wa)) with (exp_name (args w)).
  change (lora_ckpt (args wa)) with (lora_ckpt (args w)).
  change (testing_ckpt (args wa)) with (testing_ckpt (args w)).
  change (eval_datasets (args wa)) with (eval_datasets (args w)).
  rewrite Hname, Hckpt. fold dev.
  unfold bind at 1. unfold emit at 1, modify at 1. cbv beta iota. fold wb.
  unfold bind at 1. unfold emit at 1, modify at 1. cbv beta iota. fold w0.
  unfold bind at 1. by rewrite Hres0.
Qed.

(** With no checkpoint to evaluate, each known dataset is constructed
    and nothing more. *)
Lemma datasets_without_ckpts (dev : device) (names : list string) (idx : nat) (w : world) :
  Forall (fun name => is_Some (dataset_class name)) names ->
  exists w',
    for_enumerate idx names (fun _ => run_dataset dev []) w = (Ok tt, w') /\
    log w' = log w ++ dataset_events (data_location (args w)) names /\
    heap w' = heap w /\ figs w' = figs w /\ displayed w' = displayed w.
Proof.
  intros Hknown. revert idx w.
  induction Hknown as [|name names [cls Hcls] _ IH]; intros idx w.
  - exists w. simpl. by rewrite app_nil_r.
  - cbn [for_enumerate]. unfold run_dataset at 1. rewrite Hcls.
    unfold bind, get, emit, modify. cbn [for_enumerate ret].
    match goal with
    | |- context [for_enumerate (S idx) names _ ?x] => set (w1 := x)
    end.
    destruct (IH (S idx) w1) as (w' & Hrun & Hlog & Hheap & Hfigs & Hdisp).
    exists w'. split; [exact Hrun |]. rewrite Hlog, Hheap, Hfigs, Hdisp.
    subst w1. simpl. by rewrite <- !app_assoc.
Qed.

(** X10: when the checkpoint path is a directory none of whose entries
    contains '.pt', the driver returns normally having constructed each
    dataset and its loader and nothing else: no model is built, nothing
    is generated or plotted. *)
Theorem bounding_box_prompt_without_checkpoints (w : world) (name ckpt : string)
    (entries : list string) :
  exp_name (args w) = Some name ->
  chosen_ckpt (args w) = Some ckpt ->
  dirs w !! ckpt = Some entries ->
  Forall (fun x => is_ckpt_entry x = false) entries ->
  Forall (fun ds => is_Some (dataset_class ds)) (eval_datasets (args w)) ->
  exists w',
    bounding_box_prompt w = (Ok tt, w') /\
    log w' = log w ++ [EvDevice (if cuda_is_available then Cuda0 else Cpu); EvDeviceCount]
                   ++ dataset_events (data_location (args w)) (eval_datasets (args w)) /\
    heap w' = heap w /\ figs w' = figs w /\ displayed w' = displayed w.
Proof.
  intros Hname Hckpt Hd Hnone Hknown.
  destruct (bounding_box_prompt_start w name ckpt Hname Hckpt)
    as (ckpts & w0 & Hres & Hlog0 & Hheap0 & Hfigs0 & Hdisp0 & Hroot & ->).
  rewrite (resolve_ckpts_directory ckpt entries w Hd) in Hres.
  rewrite filter_none in Hres by done. injection Hres as <-.
  destruct (datasets_without_ckpts (if cuda_is_available then Cuda0 else Cpu)
              (eval_datasets (args w)) 0 w0 Hknown)
    as (w' & Hrun & Hlog & Hheap & Hfigs & Hdisp).
  exists w'. split; [exact Hrun |].
  rewrite Hlog, Hlog0, Hroot, Hheap, Hfigs, Hdisp. by rewrite <- app_assoc.
Qed.

(** X11: when the first evaluation dataset is not a class of the
    datasets module the driver raises [AttributeError] right after the
    device queries: no dataset is constructed and no model built. *)
Theorem bounding_box_prompt_unknown_dataset (w : world) (name ckpt ds : string)
    (rest : list string) :
  exp_name (args w) = Some name ->
  chosen_ckpt (args w) = Some ckpt ->
  eval_datasets (args w) = ds :: rest ->
  dataset_class ds = None ->
  exists w',
    bounding_box_prompt w = (Raise (AttributeError (no_dataset ds)), w') /\
    log w' = log w ++ [EvDevice (if cuda_is_available then Cuda0 else Cpu); EvDeviceCount] /\
    heap w' = heap w /\ figs w' = figs w /\ displayed w' = displayed w.
Proof.
  intros Hname Hckpt Hds Hnone.
  destruct (bounding_box_prompt_start w name ckpt Hname Hckpt)
    as (ckpts & w0 & Hres & Hlog0 & Hheap0 & Hfigs0 & Hdisp0 & Hroot & ->).
  rewrite Hds. cbn [for_enumerate]. unfold run_dataset at 1. rewrite Hnone.
  exists w0. by split.
Qed.

(** X14: on the host device, when both annotated images pass the
    conversion, plotting one prediction returns: a figure of two cells
    titled 'source image' and 'instance segmentation', axes off, is
    displayed and closed again, nothing is saved, and the lists that
    existed before are untouched. *)
Theorem show_prediction_displays_pair (inp boxes : list ndarray) (i : nat)
    (m x bx : ndarray) (w : world) :
  inp !! i = Some x ->
  boxes !! i = Some bx ->
  let det := MkDetections bx (instance_presence m) (replicate (array_len bx) 0) in
  let image := box_annotate (chw_to_hwc x) det in
  let semantic := mask_annotate (chw_to_hwc x) det in
  (ndim image <> 2%nat -> is_Some (cvtColor_BGR2RGB image)) ->
  (ndim semantic <> 2%nat -> is_Some (cvtColor_BGR2RGB semantic)) ->
  exists w' g,
    show_prediction Cpu inp boxes i m w = (Ok tt, w') /\
    displayed w' = displayed w ++ g :: figs w /\
    c_title <$> fig_cells g = [Some "source image"; Some "instance segmentation"] /\
    Forall (fun c => c_axis_on c = false) (fig_cells g) /\
    saved w' = saved w /\ figs w' = figs w /\
    log w' = log w ++ [EvSubplots 1 2; EvShow; EvClose] /\
    forall l ys, heap w !! l = Some ys -> heap w' !! l = Some ys.
Proof.
  intros Hx Hbx det image semantic Himage Hsemantic.
  unfold show_prediction. rewrite Hx, Hbx. unfold tensor_numpy.
  unfold bind at 1. unfold ret at 1. cbv beta iota.
  fold det. fold image. fold semantic.
  set (l0 := fresh (dom (heap w))).
  assert (Hfresh : heap w !! l0 = None) by apply not_elem_of_dom, is_fresh.
  set (w0 := set_heap (<[l0 := [Nd image; Nd semantic]]> (heap w)) w).
  assert (Hnew : list_new [Nd image; Nd semantic] w = (Ok l0, w0)) by done.
  rewrite (bind_ok _ _ _ _ _ Hnew).
  assert (Hl0 : heap w0 !! l0 = Some [Nd image; Nd semantic])
    by apply lookup_insert_eq.
  assert (Hn0 : normalizes [Nd image; Nd semantic] [Nd image; Nd semantic])
    by (apply normalizes_arrays; repeat constructor; by eexists).
  destruct (plot_images_grid_total l0 [Nd image; Nd semantic] [Nd image; Nd semantic]
              1 2 (Some ["source image"; "instance segmentation"]) (12, 12)
              (Some "gray") None w0 Hl0 Hn0) as [w' Hrun];
    [simpl; lia | lia | lia | lia | simpl; lia | simpl; lia | | done |].
  { repeat constructor; intros a [= <-]; by apply shown_as_total. }
  pose proof Hrun as Hret.
  apply plot_images_grid_returns in Hret
    as (xs & nxs & cells & Hl & Hn & _ & Hlen & Hcells & Hdel & Hheap & Hfigs & Hlog).
  rewrite Hl0 in Hl. injection Hl as <-.
  assert (Hnxs : nxs = [Nd image; Nd semantic]).
  { rewrite <- (normalize_prefix_all _ _ Hn). by apply normalize_prefix_all. }
  subst nxs.
  exists w', (Figure (next_fig_num (figs w)) (Some (12, 12)) cells).
  split; [exact Hrun |].
  destruct Hdel as [Hdisp Hfiles].
  split; [exact Hdisp |].
  destruct (Hcells 0%nat) as (f0 & Hf0 & Hc0); [simpl; lia |].
  destruct (Hcells 1%nat) as (f1 & Hf1 & Hc1); [simpl; lia |].
  destruct cells as [|c0 [|c1 [|c2 cells]]]; try discriminate.
  injection Hc0 as ->. injection Hc1 as ->.
  split.
  { cbn [fmap list_fmap fig_cells].
    rewrite (cell_effect_title _ _ _ _ _ (Nd image) Hf0) by done.
    rewrite (cell_effect_title _ _ _ _ _ (Nd semantic) Hf1) by done.
    done. }
  split.
  { cbn [fig_cells]. repeat constructor.
    - by apply cell_effect_axis_off with [Nd image; Nd semantic]
                (Some ["source image"; "instance segmentation"]) (Some "gray") 0%nat.
    - by apply cell_effect_axis_off with [Nd image; Nd semantic]
                (Some ["source image"; "instance segmentation"]) (Some "gray") 1%nat. }
  split; [exact Hfiles |]. split; [exact Hfigs |]. split; [exact Hlog |].
  intros l ys Hl. rewrite Hheap. cbn [heap w0 set_heap].
  rewrite !lookup_insert_ne; [done | |]; intros <-; congruence.
Qed.

(** X17: when the boxes are on the CUDA device, a batch for which the
    generator returns a mask raises [TypeError] at [boxes[i].numpy()] on
    line 135, for its first image: the generator has run, nothing is
    annotated or plotted. *)
Theorem run_batch_cuda_boxes (model : Model) (k : nat) (s : Sample)
    (rest : list Sample) (m : ndarray) (masks : list ndarray) (w : world) :
  sam_generate model (s_image <$> s :: rest) (s_bboxes <$> s :: rest) = m :: masks ->
  run_batch Cuda0 model k (s :: rest) w =
    (Raise (TypeError "can't convert cuda:0 device type tensor to numpy. Use Tensor.cpu() to copy the tensor to host memory first."),
     set_log (log w ++ [EvGenerate k]) w).
Proof.
  intros Hgen. unfold run_batch. rewrite Hgen. reflexivity.
Qed.

End DriverRuns.


(** ** Failures after the figure was allocated *)

Section Failures.
Context `{Imaging} `{Backend}.

(** Whatever its outcome, the loop leaves the newest figure in place,
    with cells rewritten, and the older ones alone. *)
Lemma render_loop_keeps_shape (l : loc) (xs : list ImageType)
    (titles : option (list string)) (cmap : option string) (num : nat)
    (size : option (Z * Z)) (old : list figure) (k idx : nat) (cells : list cell)
    (w : world) :
  heap w !! l = Some xs ->
  figs w = Figure num size cells :: old ->
  Forall (fun g => (fig_num g < num)%nat) old ->
  exists cells',
    snd (render_loop l titles cmap idx (MkAxes num <$> seq idx k) w) =
      set_figs (Figure num size cells' :: old) w.
Proof.
  revert idx cells w. induction k as [|k IH]; intros idx cells w Hl Hf Hold.
  - exists cells. simpl. by rewrite <- Hf, set_figs_id.
  - rewrite <- cons_seq, fmap_cons. cbn [render_loop].
    destruct (cell_effect xs titles cmap idx) as [f|] eqn:Hf0.
    + rewrite (bind_ok _ _ _ _ _ (render_cell_ok _ _ _ _ _ _ _ _ _ _ _ Hl Hf Hold Hf0)).
      destruct (IH (S idx) (alter f idx cells)
                  (set_figs (Figure num size (alter f idx cells) :: old) w))
        as [cells' Hrun]; [done | done | done |].
      exists cells'. by rewrite Hrun, set_figs_twice.
    + destruct (render_cell_raises l xs titles cmap idx (MkAxes num idx) w Hl Hf0)
        as [e He].
      rewrite (bind_raise _ _ _ _ _ He). exists cells. simpl.
      by rewrite <- Hf, set_figs_id.
Qed.

(** X15: every call that gets past the capacity check, with entries
    that convert and a figure size that is not negative, and then
    raises leaves the figure it allocated open: [plt.close] is not
    reached. The pyplot calls made are [plt.subplots] alone, or
    [plt.subplots] and the [plt.savefig] that raised. *)
Theorem plot_images_grid_failure_leaves_figure (l : loc) (xs : list ImageType)
    (rows cols : Z) (titles : option (list string)) (size : Z * Z)
    (cmap save_path : option string) (w w' : world) (e : exn) :
  heap w !! l = Some xs ->
  (forall i p, xs !! i = Some (Pil p) -> is_Some (pillow_to_cv2 p)) ->
  Z.of_nat (length xs) <= rows * cols ->
  0 <= fst size -> 0 <= snd size ->
  plot_images_grid l (rows, cols) titles size cmap save_path w = (Raise e, w') ->
  exists cells,
    figs w' = Figure (next_fig_num (figs w)) (Some size) cells :: figs w /\
    (log w' = log w ++ [EvSubplots rows cols] \/
     (truthy save_path = true /\
      fst (savefig_io (default EmptyString save_path) (dirs w)) = Some e /\
      log w' = log w ++ [EvSubplots rows cols;
                         EvSavefig (default EmptyString save_path)])).
Proof.
  intros Hl Hall Hle Hw Hh Hrun. unfold plot_images_grid in Hrun.
  destruct (accepted_normalizes xs Hall) as [nxs Hn].
  rewrite (plot_prefix_run l xs nxs w _ Hl Hn) in Hrun.
  rewrite Z.gtb_ltb in Hrun.
  destruct (Z.ltb_spec (rows * cols) (Z.of_nat (length xs))); [lia |].
  unfold bind at 1 in Hrun. rewrite plt_subplots_run in Hrun. cbv zeta in Hrun.
  destruct (Z.ltb_spec (fst size) 0); [lia |].
  destruct (Z.ltb_spec (snd size) 0); [lia |]. cbn [orb] in Hrun.
  destruct ((rows <=? 0) || (cols <=? 0)).
  { injection Hrun as _ <-. eexists. split; [reflexivity | by left]. }
  destruct ((rows =? 1) && (cols =? 1)).
  { injection Hrun as _ <-. eexists. split; [reflexivity | by left]. }
  unfold axes_flat, ret in Hrun. unfold bind at 1 in Hrun. unfold bind at 1 in Hrun.
  match type of Hrun with
  | context [render_loop _ _ _ _ ?axs ?x] => set (w3 := x) in *; set (flat := axs) in *
  end.
  destruct (render_loop_keeps_shape l nxs titles cmap
              (next_fig_num (figs w)) (Some size) (figs w) (Z.to_nat (rows * cols)) 0
              (replicate (Z.to_nat (rows * cols)) blank_cell) w3)
    as [cells Hshape]; [apply lookup_insert_eq | done | apply next_fig_num_fresh |].
  destruct (render_loop l titles cmap 0 flat w3) as [r w4] eqn:Hloop.
  assert (Hw4 : w4 = set_figs (Figure (next_fig_num (figs w)) (Some size) cells
                                 :: figs w) w3).
  { change w4 with (snd (r, w4)). rewrite <- Hloop. exact Hshape. }
  subst w4. destruct r as [[]|e'].
  - exists cells. destruct (truthy save_path) eqn:Ht.
    + unfold bind at 1 in Hrun.
      erewrite plt_savefig_run in Hrun by reflexivity. cbv zeta in Hrun.
      change (dirs (set_figs _ w3)) with (dirs w) in Hrun.
      destruct (fst (savefig_io (default EmptyString save_path) (dirs w)))
        as [e0|] eqn:Hio; [| discriminate].
      injection Hrun as <- <-. split; [reflexivity |]. right.
      split; [done |]. split; [done |]. simpl. by rewrite <- app_assoc.
    + discriminate.
  - injection Hrun as _ <-. exists cells. split; [reflexivity | by left].
Qed.

End Failures.


(** ** The events of a run *)

Lemma emits_bind {A B} (I : world -> Prop) (P : event -> Prop) (m : M A) (k : A -> M B) :
  emits I P m -> (forall a, emits I P (k a)) -> emits I P (bind m k).
Proof.
  intros Hm Hk w HI. unfold bind. destruct (Hm w HI) as (HI1 & evs1 & Hlog1 & HP1).
  destruct (m w) as [[a|e] w1]; simpl in *.
  - destruct (Hk a w1 HI1) as (HI2 & evs2 & Hlog2 & HP2).
    split; [done |]. exists (evs1 ++ evs2).
    rewrite Hlog2, Hlog1, app_assoc. split; [done | by apply Forall_app].
  - split; [done |]. by exists evs1.
Qed.

Lemma emits_silent {A} (I : world -> Prop) (P : event -> Prop) (m : M A) :
  keeps log m -> (forall w, I w -> I (snd (m w))) -> emits I P m.
Proof.
  intros Hlog HI w Hw. split; [by apply HI |].
  exists []. by rewrite Hlog, app_nil_r.
Qed.

Lemma emits_for_enumerate {A} (I : world -> Prop) (P : event -> Prop) (xs : list A)
    (body : nat -> A -> M unit) (idx : nat) :
  (forall i x, emits I P (body i x)) -> emits I P (for_enumerate idx xs body).
Proof.
  intros Hb. revert idx. induction xs as [|x xs IH]; intros idx.
  - by apply emits_silent.
  - apply emits_bind; [apply Hb | intros; apply IH].
Qed.

Lemma emits_emit (b : bool) (P : event -> Prop) (ev : event) :
  P ev -> emits (loads_is b) P (emit ev).
Proof. intros HP w HI. split; [done |]. exists [ev]. split; [done | by constructor]. Qed.

Lemma driver_inputs_ignores : ignores_drawing driver_inputs.
Proof. by split. Qed.

Lemma inputs_loads {A} (b : bool) (m : M A) :
  keeps driver_inputs m -> forall w, loads_is b w -> loads_is b (snd (m w)).
Proof.
  intros Hm w. specialize (Hm w). unfold driver_inputs in Hm.
  injection Hm as _ _ _ _ Ht _ _. unfold loads_is. by rewrite Ht.
Qed.

Lemma emits_plt_show (b : bool) : emits (loads_is b) (driver_event b) plt_show.
Proof.
  apply emits_bind; [by apply emits_emit |]. intros _. by apply emits_silent.
Qed.

Lemma emits_plt_close (b : bool) : emits (loads_is b) (driver_event b) plt_close.
Proof.
  apply emits_bind; [by apply emits_emit |]. intros _. by apply emits_silent.
Qed.

Section Events.
Context `{Imaging} `{Backend} `{Collaborators}.

Lemma emits_plot_shown (b : bool) (l : loc) (rows cols : Z)
    (titles : option (list string)) (size : Z * Z) (cmap : option string) :
  emits (loads_is b) (driver_event b)
    (plot_images_grid l (rows, cols) titles size cmap None).
Proof.
  unfold plot_images_grid.
  apply emits_bind.
  { apply emits_silent; [apply drawing_list_len | apply inputs_loads, drawing_list_len]. }
  intros n. apply emits_bind.
  { apply emits_silent;
      [apply drawing_normalize_loop, log_ignores
      | apply inputs_loads, drawing_normalize_loop, driver_inputs_ignores]. }
  intros _. apply emits_bind.
  { apply emits_silent; [apply drawing_list_len | apply inputs_loads, drawing_list_len]. }
  intros n2. destruct (Z.of_nat n2 >? rows * cols); [by apply emits_silent |].
  apply emits_bind.
  { intros w HI. rewrite plt_subplots_run. cbv zeta.
    destruct ((fst size <? 0) || (snd size <? 0));
      [| destruct ((rows <=? 0) || (cols <=? 0))]; (split; [done |]);
      exists [EvSubplots rows cols]; (split; [done | by repeat constructor]). }
  intros axes. apply emits_bind.
  { apply emits_silent; [apply drawing_axes_flat | apply inputs_loads, drawing_axes_flat]. }
  intros flat. apply emits_bind.
  { apply emits_silent;
      [apply drawing_render_loop, log_ignores
      | apply inputs_loads, drawing_render_loop, driver_inputs_ignores]. }
  intros _. apply emits_bind; [apply emits_plt_show | intros _; apply emits_plt_close].
Qed.

Lemma emits_show_prediction (b : bool) dev inp boxes i m :
  emits (loads_is b) (driver_event b) (show_prediction dev inp boxes i m).
Proof.
  unfold show_prediction.
  destruct (inp !! i); [| by apply emits_silent].
  destruct (boxes !! i); [| by apply emits_silent].
  apply emits_bind; [destruct dev; by apply emits_silent |]. intros xyxy.
  apply emits_bind; [by apply emits_silent |]. intros l. apply emits_plot_shown.
Qed.

(** Lines 104-146, with [args] as line 103 left them. *)
Lemma emits_ckpt_tail (b : bool) dev dataset fold_ckpt (a : Namespace) :
  lora_ckpt a = Some fold_ckpt ->
  truthy (testing_ckpt a) = b ->
  emits (loads_is b) (driver_event b)
    (emit (EvGetModel (lora_ckpt a)) ;;
     model <-
       (if truthy (testing_ckpt a) then
          emit (EvLoadState fold_ckpt) ;;
          match load_state_dict (get_model a dataset) fold_ckpt dev with
          | Some m => ret m
          | None => raise FileNotFoundError
          end
        else ret (get_model a dataset)) ;;
     emit (EvModelTo dev) ;;
     for_enumerate 0 (batches (ds_samples dataset)) (run_batch dev model))%py.
Proof.
  intros Hlora Hloads. rewrite Hlora, Hloads.
  apply emits_bind; [by apply emits_emit |]. intros _.
  apply emits_bind.
  - destruct b; [| by apply emits_silent].
    apply emits_bind; [by apply emits_emit |]. intros _.
    destruct (load_state_dict _ _ _); by apply emits_silent.
  - intros model. apply emits_bind; [by apply emits_emit |]. intros _.
    apply emits_for_enumerate. intros k batch. unfold run_batch.
    apply emits_bind; [by apply emits_emit |]. intros _.
    apply emits_for_enumerate. intros. apply emits_show_prediction.
Qed.

(** From the assignment of line 103 on, [args.lora_ckpt] names the
    checkpoint being evaluated. *)
Lemma emits_run_ckpt (b : bool) dev dataset fold_ckpt :
  emits (loads_is b) (driver_event b) (run_ckpt dev dataset fold_ckpt).
Proof.
  intros w HI. unfold run_ckpt. unfold bind at 1. unfold modify at 1. cbv beta iota.
  unfold bind at 1. unfold get at 1. cbv beta iota.
  set (w1 := set_args (set_lora_ckpt (Some fold_ckpt) (args w)) w).
  change (log w) with (log w1).
  by apply (emits_ckpt_tail b dev dataset fold_ckpt (args w1)).
Qed.

Lemma emits_run_dataset (b : bool) dev ckpts name :
  emits (loads_is b) (driver_event b) (run_dataset dev ckpts name).
Proof.
  unfold run_dataset. destruct (dataset_class name) as [cls|]; [| by apply emits_silent].
  apply emits_bind; [by apply emits_silent |]. intros w.
  apply emits_bind; [by apply emits_emit |]. intros _.
  apply emits_bind; [by apply emits_emit |]. intros _.
  apply emits_bind; [by apply emits_silent |]. intros _.
  apply emits_for_enumerate. intros. apply emits_run_ckpt.
Qed.

(** X16: in every run the driver only appends to the log, and among
    the events it appends no model is built while [args.lora_ckpt] is
    [None] (line 103 sets it to the checkpoint being evaluated, also
    when only [testing_ckpt] was given), no figure is saved, and a saved
    state is loaded only when [args.testing_ckpt] is truthy. *)
Theorem bounding_box_prompt_events (w : world) :
  exists evs,
    log (snd (bounding_box_prompt w)) = log w ++ evs /\
    Forall (driver_event (truthy (testing_ckpt (args w)))) evs.
Proof.
  set (b := truthy (testing_ckpt (args w))).
  assert (Hm : emits (loads_is b) (driver_event b) bounding_box_prompt).
  { unfold bounding_box_prompt.
    apply emits_bind; [by apply emits_silent |]. intros _.
    apply emits_bind; [by apply emits_silent |]. intros w1.
    destruct (exp_name (args w1)); [| by apply emits_silent].
    apply emits_bind; [by apply emits_emit |]. intros _.
    apply emits_bind; [by apply emits_emit |]. intros _.
    destruct (match lora_ckpt (args w1) with
              | Some c => Some c
              | None => testing_ckpt (args w1)
              end) as [ckpt|]; [| by apply emits_silent].
    apply emits_bind.
    { apply emits_silent; intros w2;
        destruct (resolve_ckpts_returns ckpt w2) as [ps ->]; done. }
    intros ckpts. apply emits_for_enumerate. intros. apply emits_run_dataset. }
  by destruct (Hm w eq_refl) as [_ Hevs].
Qed.

End Events.

(** ** Instances *)


Lemma plot_images_grid_single_cell_leaves_figure_witness :
  let w := world_with [Pil rgb_photo] in
  exists w',
    @plot_images_grid reference_imaging sample_backend 0%nat (1, 1) None (12, 12)
      (Some "gray") (Some "one.png") w =
      (Raise (AttributeError "'Axes' object has no attribute 'flat'"), w') /\
    figs w' = Figure (next_fig_num (figs w)) (Some (12, 12)) [blank_cell] :: figs w /\
    saved w' = saved w /\ displayed w' = displayed w /\
    log w' = log w ++ [EvSubplots 1 1].
Proof.
  apply (@plot_images_grid_single_cell_leaves_figure reference_imaging sample_backend
           0%nat [Pil rgb_photo]);
    [reflexivity | | simpl; lia | simpl; lia | simpl; lia].
  intros [|i] p; simpl; intros [= <-]; by eexists.
Defined.

(** [plt.savefig] raises for a directory that does not exist. *)
Lemma plot_images_grid_raise_without_output_witness :
  let w := world_with [Nd bgr_pixel; Nd bgr_pixel] in
  let run := @plot_images_grid reference_imaging sample_backend 0%nat (1, 2) None
               (12, 12) (Some "gray") (Some "/nonexistent/out.png") w in
  fst run = Raise FileNotFoundError /\
  saved (snd run) = saved w /\ displayed (snd run) = displayed w.
Proof.
  split; [vm_compute; reflexivity |].
  apply (@plot_images_grid_raise_without_output reference_imaging sample_backend
           0%nat 1 2 None (12, 12) (Some "gray") (Some "/nonexistent/out.png") _
           FileNotFoundError).
  vm_compute. reflexivity.
Defined.

Lemma plot_images_grid_spare_cells_witness :
  let xs := [Nd (checkerboard 2)] in
  let w := world_with xs in
  let run := @plot_images_grid reference_imaging sample_backend 0%nat (2, 2)
               (Some ["a"; "b"; "c"]) (12, 12) (Some "gray") None w in
  run = (Ok tt, snd run) /\
  exists g,
    delivered w (snd run) None g /\
    forall i, (length xs <= i)%nat -> Z.of_nat i < 2 * 2 ->
      fig_cells g !! i = Some (Cell [] None false).
Proof.
  split; [vm_compute; reflexivity |].
  apply (@plot_images_grid_spare_cells reference_imaging sample_backend 0%nat
           [Nd (checkerboard 2)] 2 2 (Some ["a"; "b"; "c"]) (12, 12) (Some "gray") None);
    [reflexivity | vm_compute; reflexivity].
Defined.

Lemma plot_images_grid_second_call_witness :
  let xs := [Pil rgb_photo; Pil gray_alpha_photo] in
  let w1 := snd (@plot_images_grid reference_imaging sample_backend 0%nat (1, 2) None
                   (12, 12) (Some "gray") None (world_with xs)) in
  (exists ys, heap w1 !! 0%nat = Some ys /\ length ys = length xs /\
     ((forall i p, xs !! i = Some (Pil p) ->
         is_Some (@pillow_to_cv2 reference_imaging p)) ->
      Forall is_array ys)) /\
  heap (snd (@plot_images_grid reference_imaging sample_backend 0%nat (1, 1) None
               (4, 4) None (Some "again.png") w1)) = heap w1.
Proof.
  apply (@plot_images_grid_second_call reference_imaging sample_backend 0%nat
           [Pil rgb_photo; Pil gray_alpha_photo]).
  reflexivity.
Defined.

Lemma plot_images_grid_rejection_is_clean_witness :
  let w := world_with [Nd bgr_pixel; Nd bgr_pixel; Nd bgr_pixel] in
  @plot_images_grid reference_imaging sample_backend 0%nat (1, 2) None (12, 12)
    (Some "gray") None w
    = (Raise (ValueError grid_error), w).
Proof.
  apply (@plot_images_grid_rejection_is_clean reference_imaging sample_backend 0%nat
           [Nd bgr_pixel; Nd bgr_pixel; Nd bgr_pixel]);
    [reflexivity | repeat constructor; by eexists | simpl; lia].
Defined.

Lemma plot_images_grid_nonpositive_grid_witness :
  fst (@plot_images_grid reference_imaging sample_backend 0%nat (-1, -2) None (12, 12)
         (Some "gray") None (world_with [Nd bgr_pixel; Nd bgr_pixel])) =
    Raise (ValueError "Number of rows must be a positive integer, not -1") /\
  layout_error (-1) (-2) <> grid_error.
Proof.
  apply (@plot_images_grid_nonpositive_grid reference_imaging sample_backend 0%nat
           [Nd bgr_pixel; Nd bgr_pixel] (-1) (-2) None (12, 12) (Some "gray") None);
    [reflexivity | | simpl; lia | lia | simpl; lia | simpl; lia].
  intros [|[|i]] p; discriminate.
Defined.

(** [plt.savefig] raises for a directory that does not exist, after the
    figure was drawn. *)
Lemma plot_images_grid_failure_leaves_figure_witness :
  let w := world_with [Nd (checkerboard 2)] in
  let run := @plot_images_grid reference_imaging sample_backend 0%nat (1, 2) None
               (12, 12) (Some "gray") (Some "/nonexistent/out.png") w in
  run = (Raise FileNotFoundError, snd run) /\
  exists cells,
    figs (snd run) = Figure (next_fig_num (figs w)) (Some (12, 12)) cells :: figs w /\
    (log (snd run) = log w ++ [EvSubplots 1 2] \/
     (truthy (Some "/nonexistent/out.png") = true /\
      fst (@savefig_io sample_backend "/nonexistent/out.png" (dirs w)) =
        Some FileNotFoundError /\
      log (snd run) = log w ++ [EvSubplots 1 2; EvSavefig "/nonexistent/out.png"])).
Proof.
  split; [vm_compute; reflexivity |].
  apply (@plot_images_grid_failure_leaves_figure reference_imaging sample_backend
           0%nat [Nd (checkerboard 2)] 1 2 None (12, 12) (Some "gray")
           (Some "/nonexistent/out.png") _ _ FileNotFoundError);
    [reflexivity | | simpl; lia | simpl; lia | simpl; lia | vm_compute; reflexivity].
  intros [|i] p; discriminate.
Defined.

Lemma resolve_ckpts_selects_by_substring_witness :
  let w := listing_world "runs" ["model.pt.bak"; "readme.txt"] no_args in
  exists ps,
    resolve_ckpts "runs" w = (Ok ps, w) /\
    forall p, In p ps <->
      exists x pre post,
        In x ["model.pt.bak"; "readme.txt"] /\ x = pre +:+ ".pt" +:+ post /\
        p = os_path_join "runs" x.
Proof.
  apply (resolve_ckpts_selects_by_substring "runs" ["model.pt.bak"; "readme.txt"]).
  reflexivity.
Defined.

Lemma bounding_box_prompt_without_checkpoints_witness :
  let w := listing_world "lora.pt" ["readme.txt"] (europa_args (Some "run1")) in
  exists w',
    @bounding_box_prompt reference_imaging sample_backend sample_collaborators w =
      (Ok tt, w') /\
    log w' = log w ++ [EvDevice Cpu; EvDeviceCount]
                   ++ dataset_events "/data" ["Europa"] /\
    heap w' = heap w /\ figs w' = figs w /\ displayed w' = displayed w.
Proof.
  apply (@bounding_box_prompt_without_checkpoints reference_imaging sample_backend
           sample_collaborators
           (listing_world "lora.pt" ["readme.txt"] (europa_args (Some "run1")))
           "run1" "lora.pt" ["readme.txt"]);
    [reflexivity | reflexivity | reflexivity | by repeat constructor
    | repeat constructor; by eexists].
Defined.

Lemma bounding_box_prompt_unknown_dataset_witness :
  let w := world_of_args mars_args in
  exists w',
    @bounding_box_prompt reference_imaging sample_backend sample_collaborators w =
      (Raise (AttributeError "module 'src.datasets' has no attribute 'Mars'"), w') /\
    log w' = log w ++ [EvDevice Cpu; EvDeviceCount] /\
    heap w' = heap w /\ figs w' = figs w /\ displayed w' = displayed w.
Proof.
  apply (@bounding_box_prompt_unknown_dataset reference_imaging sample_backend
           sample_collaborators (world_of_args mars_args) "run1" "best.pth" "Mars" []);
    reflexivity.
Defined.

Lemma show_prediction_displays_pair_witness :
  let w := world_with [Nd (checkerboard 2)] in
  exists w' g,
    @show_prediction reference_imaging sample_backend sample_collaborators Cpu
      [bgr_pixel] [NdArray [1; 4]%nat [0; 0; 1; 1]] 0
      (NdArray [1; 2; 1; 1]%nat [0; 1]) w = (Ok tt, w') /\
    displayed w' = displayed w ++ g :: figs w /\
    c_title <$> fig_cells g = [Some "source image"; Some "instance segmentation"] /\
    Forall (fun c => c_axis_on c = false) (fig_cells g) /\
    saved w' = saved w /\ figs w' = figs w /\
    log w' = log w ++ [EvSubplots 1 2; EvShow; EvClose] /\
    forall l ys, heap w !! l = Some ys -> heap w' !! l = Some ys.
Proof.
  apply (@show_prediction_displays_pair reference_imaging sample_backend
           sample_collaborators
           [bgr_pixel] [NdArray [1; 4]%nat [0; 0; 1; 1]] 0
           (NdArray [1; 2; 1; 1]%nat [0; 1]) bgr_pixel (NdArray [1; 4]%nat [0; 0; 1; 1]));
    [reflexivity | reflexivity | intros _; by eexists | intros _; by eexists].
Defined.

Lemma run_batch_cuda_boxes_witness :
  let batch := [MkSample bgr_pixel "tile0" (NdArray [1; 4]%nat [0; 0; 1; 1])] in
  let w := world_with [] in
  @run_batch reference_imaging sample_backend sample_collaborators Cuda0
    (Some "lora.pt") 0 batch w =
    (Raise (TypeError "can't convert cuda:0 device type tensor to numpy. Use Tensor.cpu() to copy the tensor to host memory first."),
     set_log (log w ++ [EvGenerate 0]) w).
Proof.
  apply (@run_batch_cuda_boxes reference_imaging sample_backend sample_collaborators
           (Some "lora.pt") 0
           (MkSample bgr_pixel "tile0" (NdArray [1; 4]%nat [0; 0; 1; 1])) []
           (NdArray [1; 2; 1; 1]%nat [0; 1]) []).
  reflexivity.
Defined.
